(** * Cortex agent bridge: stream decoding and result assembly

    A shallow embedding of [src/cortex_agents.py]: the server-sent-event
    decoder [process_sse_response], the statement executor [execute_sql]
    and the tool entry point [run_cortex_agents], followed by the
    properties the specification states about them.

    Conventions of the embedding.
    - A Python [str] is a [string]; a character is a code point below 256.
    - The objects produced by [json.loads] are the inductive [value].
      A [dict] is an association list in insertion order.
    - A Python exception is a value of [exn]; code that may raise returns
      a [result]. Only subclasses of [Exception] are modelled.
    - The collaborators outside the repository ([json.loads], the two HTTP
      endpoints, [uuid.uuid4], [tabulate], [str(e)]) are variables of the
      section [Program]. *)

From Stdlib Require Import String Ascii List ZArith Bool Arith Lia.
Import ListNotations.

Local Open Scope string_scope.
Local Open Scope list_scope.

(** ** Exceptions and the error monad *)

Inductive exn : Type :=
| TypeError                      (* operand, iteration or subscript of the wrong type *)
| AttributeError                 (* [.get] on an object that is not a dict *)
| KeyError                       (* [col["name"]] on a dict without that key *)
| JSONDecodeError                (* raised by [json.loads] on a malformed document *)
| LibraryError (what : string).  (* any other [Exception] raised inside a library *)

Inductive result (A : Type) : Type :=
| Ok (a : A)
| Raise (e : exn).
Arguments Ok {A} a.
Arguments Raise {A} e.

Definition bind {A B : Type} (m : result A) (k : A -> result B) : result B :=
  match m with
  | Ok a => k a
  | Raise e => Raise e
  end.

Notation "x <- m ;; k" := (bind m (fun x => k))
  (at level 61, m at next level, right associativity).

(** A [for] loop whose body may raise and whose [continue] is [Ok st]. *)
Fixpoint for_each {A S : Type} (body : S -> A -> result S)
  (xs : list A) (st : S) : result S :=
  match xs with
  | [] => Ok st
  | x :: xs' => st' <- body st x ;; for_each body xs' st'
  end.

(** ** Python objects *)

(** A Python [float]: not-a-number, an infinity, or the dyadic [m * 2^e]. *)
Inductive pyfloat : Type :=
| FNan
| FInf (negative : bool)
| FFin (m e : Z).

#[warnings="-register-all"]
Inductive value : Type :=
| VNone
| VBool (b : bool)
| VInt (z : Z)
| VFloat (f : pyfloat)
| VStr (s : string)
| VList (l : list value)
| VDict (d : list (string * value)).

(** The items of a dict in insertion order; in a dict the keys are
    distinct, so a lookup stops at the first item with the key. *)
Definition dict : Type := list (string * value).

(** [key in d], [d.get(key)] and [d.get(key, default)]. *)
Fixpoint dict_get (key : string) (d : dict) : option value :=
  match d with
  | [] => None
  | (k, v) :: d' => if String.eqb k key then Some v else dict_get key d'
  end.

Definition get (key : string) (d : dict) : value :=
  match dict_get key d with
  | Some v => v
  | None => VNone
  end.

Definition get_default (key : string) (default : value) (d : dict) : value :=
  match dict_get key d with
  | Some v => v
  | None => default
  end.

(** [v == s] for a string literal [s]. *)
Definition eq_str (v : value) (s : string) : bool :=
  match v with
  | VStr s' => String.eqb s' s
  | _ => false
  end.

Definition float_is_zero (f : pyfloat) : bool :=
  match f with
  | FFin m _ => Z.eqb m 0
  | _ => false
  end.

(** Truth value of an object, as [or] and [if] test it. *)
Definition truthy (v : value) : bool :=
  match v with
  | VNone => false
  | VBool b => b
  | VInt z => negb (Z.eqb z 0)
  | VFloat f => negb (float_is_zero f)
  | VStr s => negb (String.eqb s "")
  | VList l => match l with [] => false | _ => true end
  | VDict d => match d with [] => false | _ => true end
  end.

(** [a or b]. *)
Definition py_or (a b : value) : value := if truthy a then a else b.

Fixpoint chars (s : string) : list value :=
  match s with
  | EmptyString => []
  | String c s' => VStr (String c EmptyString) :: chars s'
  end.

(** The items a [for] loop, [zip] or a comprehension draws from an object:
    the elements of a list, the characters of a string, the keys of a
    dict; anything else is not iterable. *)
Definition iter (v : value) : result (list value) :=
  match v with
  | VList l => Ok l
  | VStr s => Ok (chars s)
  | VDict d => Ok (map (fun kv => VStr (fst kv)) d)
  | _ => Raise TypeError
  end.

(** ** Strings *)

(** [str.isspace] on the code points below 256. *)
Definition is_space (c : ascii) : bool :=
  let n := nat_of_ascii c in
  (((9 <=? n) && (n <=? 13)) || ((28 <=? n) && (n <=? 32))
   || (n =? 133) || (n =? 160))%nat.

Fixpoint lstrip (s : string) : string :=
  match s with
  | EmptyString => EmptyString
  | String c s' => if is_space c then lstrip s' else s
  end.

Fixpoint rstrip (s : string) : string :=
  match s with
  | EmptyString => EmptyString
  | String c s' =>
      match rstrip s' with
      | EmptyString => if is_space c then EmptyString else String c EmptyString
      | r => String c r
      end
  end.

Definition strip (s : string) : string := rstrip (lstrip s).

Definition startswith (s p : string) : bool := String.prefix p s.

(** [s[n:]]. *)
Fixpoint drop (n : nat) (s : string) : string :=
  match n, s with
  | O, _ => s
  | S n', String _ s' => drop n' s'
  | S _, EmptyString => EmptyString
  end.

(** [s.replace(old, new)]: every occurrence of [old], found left to right
    without overlap, becomes [new]; [skip] counts the characters of an
    occurrence still to be passed over. An empty [old] matches before
    every character and at the end. *)
Fixpoint replace_from (skip : nat) (old new s : string) : string :=
  match skip with
  | S k =>
      match s with
      | EmptyString => EmptyString
      | String _ s' => replace_from k old new s'
      end
  | O =>
      match s with
      | EmptyString => if String.eqb old "" then new else EmptyString
      | String c s' =>
          if String.eqb old "" then new ++ String c (replace_from 0 old new s')
          else if String.prefix old s
               then new ++ replace_from (String.length old - 1) old new s'
               else String c (replace_from 0 old new s')
      end
  end.

Definition replace (old new s : string) : string := replace_from 0 old new s.

(** ** The aggregate state of [process_sse_response] *)

(** One entry of [citations]: [{"source_id": ..., "doc_id": ...}]. *)
Record citation : Type := mk_citation {
  source_id : value;
  doc_id : value
}.

(** The three local variables [text, sql, citations]. *)
Record aggregate : Type := mk_aggregate {
  text : string;
  sql : string;
  citations : list citation
}.

Definition initial : aggregate := mk_aggregate "" "" [].

(** [text += d.get("text", "")]: [str + x] raises unless [x] is a [str]. *)
Definition add_text (st : aggregate) (d : dict) : result aggregate :=
  match get_default "text" (VStr "") d with
  | VStr s => Ok (mk_aggregate (text st ++ s) (sql st) (citations st))
  | _ => Raise TypeError
  end.

(** [if isinstance(j.get("sql"), str): sql = j["sql"]]. *)
Definition capture_sql (st : aggregate) (j : dict) : aggregate :=
  match get "sql" j with
  | VStr s => mk_aggregate (text st) s (citations st)
  | _ => st
  end.

(** Body of [for s in search_results]. *)
Definition append_citation (cs : list citation) (s : value) : list citation :=
  match s with
  | VDict sd => cs ++ [mk_citation (get "source_id" sd) (get "doc_id" sd)]
  | _ => cs
  end.

Definition capture_citations (st : aggregate) (j : dict) : aggregate :=
  match get_default "searchResults" (VList []) j with
  | VList search_results =>
      mk_aggregate (text st) (sql st)
        (fold_left append_citation search_results (citations st))
  | _ => st
  end.

(** Body of [for result in tool_results.get("content", []) or []]; the
    loop variable [result] is [res] here. *)
Definition fold_result (st : aggregate) (res : value) : result aggregate :=
  match res with
  | VDict r =>
      if eq_str (get "type" r) "json" then
        match get_default "json" (VDict []) r with
        | VDict j =>
            st1 <- add_text st j ;;
            Ok (capture_citations (capture_sql st1 j) j)
        | _ => Ok st
        end
      else Ok st
  | _ => Ok st
  end.

(** Body of [for item in content_items]. *)
Definition fold_item (st : aggregate) (item : value) : result aggregate :=
  match item with
  | VDict it =>
      let t := get "type" it in
      if eq_str t "text" then add_text st it
      else if eq_str t "tool_results" then
        match get_default "tool_results" (VDict []) it with
        | VDict tool_results =>
            results <- iter (py_or (get_default "content" (VList []) tool_results)
                                   (VList [])) ;;
            for_each fold_result results st
        | _ => Ok st
        end
      else Ok st
  | _ => Ok st
  end.

(** Lines 64-103: the fold of one located [delta] into the state. *)
Definition fold_delta (st : aggregate) (delta : dict) : result aggregate :=
  match get_default "content" (VList []) delta with
  | VList content_items => for_each fold_item content_items st
  | _ => Ok st
  end.

(** Lines 54-59: where the delta of an event is looked for. *)
Definition extract_delta (evt : value) : option dict :=
  match evt with
  | VDict e =>
      match dict_get "delta" e with
      | Some (VDict delta) => Some delta
      | _ =>
          match get "data" e with
          | VDict data =>
              match get "delta" data with
              | VDict delta => Some delta
              | _ => None
              end
          | _ => None
          end
      end
  | _ => None
  end.

(** Lines 38-46: the payload of a line of the event protocol, [None]
    where the loop body ends in [continue]. *)
Definition payload_of (raw_line : string) : option string :=
  if String.eqb raw_line "" then None else
  let raw_line := strip raw_line in
  if negb (startswith raw_line "data:") then None else
  let payload := strip (drop (String.length "data:") raw_line) in
  if String.eqb payload "" || String.eqb payload "[DONE]" then None
  else Some payload.

(** The body of a streamed response: the lines [aiter_lines] yields and,
    when the transport fails while reading, the exception that ends them. *)
Record sse_body : Type := mk_body {
  aiter_lines : list string;
  read_fault : option exn
}.

(** ** Row dicts, the endpoints and the response *)

(** A dict built by [dict(zip(columns, row))]: its keys are whatever the
    column descriptors carry, in insertion order. *)
Definition row : Type := list (value * value).

Definition hashable (v : value) : bool :=
  match v with
  | VList _ | VDict _ => false
  | _ => true
  end.

Definition as_number (v : value) : option pyfloat :=
  match v with
  | VBool b => Some (FFin (if b then 1 else 0) 0)
  | VInt z => Some (FFin z 0)
  | VFloat f => Some f
  | _ => None
  end.

(** Numeric equality; the decoder hands out one not-a-number object, which
    a dict finds again by identity. *)
Definition float_eqb (a b : pyfloat) : bool :=
  match a, b with
  | FNan, FNan => true
  | FInf s, FInf t => Bool.eqb s t
  | FFin m1 e1, FFin m2 e2 =>
      let e := Z.min e1 e2 in
      Z.eqb (m1 * 2 ^ (e1 - e)) (m2 * 2 ^ (e2 - e))
  | _, _ => false
  end.

(** When two hashable objects are the same dict key. *)
Definition key_eqb (a b : value) : bool :=
  match a, b with
  | VNone, VNone => true
  | VStr s, VStr t => String.eqb s t
  | _, _ =>
      match as_number a, as_number b with
      | Some x, Some y => float_eqb x y
      | _, _ => false
      end
  end.

(** [d[k] = v]: an existing key keeps its place and takes the new value. *)
Fixpoint row_set (k v : value) (d : row) : row :=
  match d with
  | [] => [(k, v)]
  | (k', v') :: d' =>
      if key_eqb k' k then (k', v) :: d' else (k', v') :: row_set k v d'
  end.

(** [dict(pairs)], filling [d]. *)
Fixpoint dict_of (pairs : list (value * value)) (d : row) : result row :=
  match pairs with
  | [] => Ok d
  | (k, v) :: pairs' =>
      if hashable k then dict_of pairs' (row_set k v d) else Raise TypeError
  end.

Definition zip (xs ys : list value) : list (value * value) := combine xs ys.

(** A list comprehension whose element expression may raise. *)
Fixpoint map_m {A B : Type} (f : A -> result B) (xs : list A) : result (list B) :=
  match xs with
  | [] => Ok []
  | x :: xs' => y <- f x ;; ys <- map_m f xs' ;; Ok (y :: ys)
  end.

(** [v.get(key, default)] on an object not known to be a dict. *)
Definition attr_get (key : string) (default : value) (v : value) : result value :=
  match v with
  | VDict d => Ok (get_default key default d)
  | _ => Raise AttributeError
  end.

(** [col["name"]]. *)
Definition subscript_name (col : value) : result value :=
  match col with
  | VDict d =>
      match dict_get "name" d with
      | Some v => Ok v
      | None => Raise KeyError
      end
  | _ => Raise TypeError
  end.

(** [dict(zip(columns, row))]. *)
Definition make_row (columns : list value) (r : value) : result row :=
  vs <- iter r ;; dict_of (zip columns vs) [].

Record http_response : Type := mk_response {
  status_code : Z;
  response_text : string;     (* [.text] *)
  response_json : result value  (* [.json()] *)
}.

Inductive request : Type :=
| AgentRun (request_id : string) (payload : value)
| Statements (request_id : string) (payload : value).

(** What a call leaves behind: the identifiers drawn from [uuid.uuid4]
    and the requests posted, oldest first. *)
Record world : Type := mk_world {
  drawn : nat;
  sent : list request
}.

Definition post (q : request) (w : world) : world :=
  mk_world (drawn w) (sent w ++ [q]).

(** The dict [run_cortex_agents] returns, by key. *)
Record response_object : Type := mk_response_object {
  out_text : string;
  out_sql : string;
  out_results : option (list row);
  out_results_table : option string;
  out_citations : list citation
}.

Definition of_env (v : option string) : value :=
  match v with
  | Some s => VStr s
  | None => VNone
  end.

Section Program.

(** [json.loads]: the object a document denotes, [Raise JSONDecodeError]
    on a malformed one, another exception when the library gives up. *)
Variable json_loads : string -> result value.

(** Body of [async for raw_line in resp.aiter_lines()]. *)
Definition fold_line (st : aggregate) (raw_line : string) : result aggregate :=
  match payload_of raw_line with
  | None => Ok st
  | Some payload =>
      match json_loads payload with
      | Raise JSONDecodeError => Ok st
      | Raise e => Raise e
      | Ok evt =>
          match extract_delta evt with
          | Some delta => fold_delta st delta
          | None => Ok st
          end
      end
  end.

Definition process_sse_response (resp : sse_body)
  : result (string * string * list citation) :=
  st <- for_each fold_line (aiter_lines resp) initial ;;
  match read_fault resp with
  | Some e => Raise e
  | None => Ok (text st, sql st, citations st)
  end.


(** [uuid.uuid4()]: the identifier of the n-th draw. *)
Variable uuid4 : nat -> string.

(** [os.getenv] of the two optional settings. *)
Variable SEMANTIC_MODEL_FILE : option string.
Variable CORTEX_SEARCH_SERVICE : option string.

(** The execute endpoint: the response to a posted payload, or the
    exception the transport raises. *)
Variable statements_endpoint : string -> value -> result http_response.

(** The agent-run endpoint, after [raise_for_status]. *)
Variable agent_endpoint : string -> value -> result sse_body.

(** [tabulate(rows, headers="keys", tablefmt="pretty")]. *)
Variable tabulate : list row -> result string.

(** [str(e)]. *)
Variable str_exn : exn -> string.

Definition fresh_uuid (w : world) : string * world :=
  (uuid4 (drawn w), mk_world (S (drawn w)) (sent w)).

(** The headers of the request are the constant [API_HEADERS] and are
    left out. *)
Definition execute_sql (sql : string) (w : world) : result value * world :=
  let (request_id, w1) := fresh_uuid w in
  let sql_payload :=
    VDict [("statement", VStr (replace ";" "" sql)); ("timeout", VInt 60)] in
  let w2 := post (Statements request_id sql_payload) w1 in
  match statements_endpoint request_id sql_payload with
  | Raise e => (Raise e, w2)
  | Ok sql_response =>
      if Z.eqb (status_code sql_response) 200
      then (response_json sql_response, w2)
      else (Ok (VDict [("error",
                        VStr ("SQL API error: " ++ response_text sql_response))]),
            w2)
  end.

(** Lines 163-167, once [execute_sql] has returned [results]. *)
Definition tabulate_results (results : value)
  : result (list row * option string) :=
  data_rows <- attr_get "data" (VList []) results ;;
  meta <- attr_get "resultSetMetaData" (VDict []) results ;;
  row_type <- attr_get "rowType" (VList []) meta ;;
  cols <- iter row_type ;;
  columns <- map_m subscript_name cols ;;
  rows <- iter data_rows ;;
  results_table <- map_m (make_row columns) rows ;;
  match results_table with
  | [] => Ok (results_table, None)
  | _ => s <- tabulate results_table ;; Ok (results_table, Some s)
  end.

(** The body of the [try] statement, lines 162-167. *)
Definition try_execute (sql : string) (w : world)
  : result (list row * option string) * world :=
  let (results, w1) := execute_sql sql w in
  (r <- results ;; tabulate_results r, w1).

Definition agent_payload (query : string) : value :=
  VDict [
    ("model", VStr "claude-3-5-sonnet");
    ("response_instruction", VStr "You are a helpful AI assistant.");
    ("experimental", VDict []);
    ("tools", VList [
       VDict [("tool_spec", VDict [("type", VStr "cortex_analyst_text_to_sql");
                                   ("name", VStr "Analyst1")])];
       VDict [("tool_spec", VDict [("type", VStr "cortex_search");
                                   ("name", VStr "Search1")])];
       VDict [("tool_spec", VDict [("type", VStr "sql_exec");
                                   ("name", VStr "sql_execution_tool")])]]);
    ("tool_resources", VDict [
       ("Analyst1", VDict [("semantic_model_file", of_env SEMANTIC_MODEL_FILE)]);
       ("Search1", VDict [("name", of_env CORTEX_SEARCH_SERVICE)])]);
    ("tool_choice", VDict [("type", VStr "auto")]);
    ("messages", VList [
       VDict [("role", VStr "user");
              ("content", VList [VDict [("type", VStr "text");
                                        ("text", VStr query)]])]])
  ].

(** Lines 158-178: what is done with the aggregated [text, sql, citations]. *)
Definition assemble (text sql : string) (citations : list citation) (w : world)
  : response_object * world :=
  let '(results_table, results_table_str, w1) :=
    if String.eqb sql "" then (None, None, w)
    else
      match try_execute sql w with
      | (Ok (results_table, results_table_str), w1) =>
          (Some results_table, results_table_str, w1)
      | (Raise e, w1) =>
          (Some [[(VStr "error", VStr ("SQL execution failed: " ++ str_exn e))]],
           Some ("SQL execution failed: " ++ str_exn e)%string, w1)
      end in
  (mk_response_object
     (if String.eqb text "" then "No text response generated." else text)
     (if String.eqb sql "" then "NO_SQL_GENERATED" else sql)
     results_table
     results_table_str
     citations,
   w1).

Definition run_cortex_agents (query : string) (w : world)
  : result response_object * world :=
  let payload := agent_payload query in
  let (request_id, w1) := fresh_uuid w in
  let w2 := post (AgentRun request_id payload) w1 in
  match agent_endpoint request_id payload with
  | Raise e => (Raise e, w2)
  | Ok resp =>
      match process_sse_response resp with
      | Raise e => (Raise e, w2)
      | Ok (text, sql, citations) =>
          let (response, w3) := assemble text sql citations w2 in
          (Ok response, w3)
      end
  end.

(** The world once the agent has been asked: one identifier drawn, one
    request posted. *)
Definition asked (query : string) (w : world) : world :=
  mk_world (S (drawn w))
    (sent w ++ [AgentRun (uuid4 (drawn w)) (agent_payload query)]).

End Program.

(** ** The specification's reading of a stream

    The definitions below follow the words of the specification: they
    name the tool-result entries of a stream, the statements those entries
    set and the search results they carry, without running the fold. *)

Definition is_object (v : value) : bool :=
  match v with
  | VDict _ => true
  | _ => false
  end.

(** The objects among the members of a list. *)
Definition objects (vs : list value) : list dict :=
  flat_map (fun v => match v with VDict d => [d] | _ => [] end) vs.

(** A field read as a sequence: empty when absent or not a sequence. *)
Definition sequence (v : option value) : list value :=
  match v with
  | Some (VList l) => l
  | _ => []
  end.

(** The [json] object of a tool-result entry tagged [json]. *)
Definition entry_json (r : dict) : list dict :=
  if eq_str (get "type" r) "json" then
    match dict_get "json" r with
    | Some (VDict j) => [j]
    | _ => []
    end
  else [].

(** The tool-result objects of one content item. *)
Definition item_entries (it : dict) : list dict :=
  if eq_str (get "type" it) "tool_results" then
    match dict_get "tool_results" it with
    | Some (VDict tool_results) =>
        flat_map entry_json (objects (sequence (dict_get "content" tool_results)))
    | _ => []
    end
  else [].

Definition delta_entries (delta : dict) : list dict :=
  flat_map item_entries (objects (sequence (dict_get "content" delta))).

(** The statement an entry sets, if its [sql] field is a string. *)
Definition entry_sql (j : dict) : list string :=
  match dict_get "sql" j with
  | Some (VStr s) => [s]
  | _ => []
  end.

(** The members of an entry's [searchResults] sequence. *)
Definition entry_search_results (j : dict) : list value :=
  sequence (dict_get "searchResults" j).

(** The citation record of a search result: an absent field is null. *)
Definition citation_record (s : value) : citation :=
  match s with
  | VDict sd => mk_citation (get "source_id" sd) (get "doc_id" sd)
  | _ => mk_citation VNone VNone
  end.

(** Follows a path of keys through nested objects. *)
Fixpoint lookup_path (path : list string) (v : value) : option value :=
  match path with
  | [] => Some v
  | key :: path' =>
      match v with
      | VDict d =>
          match dict_get key d with
          | Some v' => lookup_path path' v'
          | None => None
          end
      | _ => None
      end
  end.

Definition object_at (path : list string) (v : value) : bool :=
  match lookup_path path v with
  | Some (VDict _) => true
  | _ => false
  end.

(** Deletes every occurrence of the character [c]. *)
Fixpoint delete_all (c : ascii) (s : string) : string :=
  match s with
  | EmptyString => EmptyString
  | String c' s' =>
      if Ascii.eqb c' c then delete_all c s' else String c' (delete_all c s')
  end.

(** The data model's typing of the text fragments and of the nested
    [content] sequence. *)
Definition text_ok (d : dict) : bool :=
  match dict_get "text" d with
  | None | Some (VStr _) => true
  | Some _ => false
  end.

Definition entry_ok (r : value) : bool :=
  match r with
  | VDict rd => forallb text_ok (entry_json rd)
  | _ => true
  end.

Definition item_ok (item : value) : bool :=
  match item with
  | VDict it =>
      if eq_str (get "type" it) "text" then text_ok it
      else if eq_str (get "type" it) "tool_results" then
        match dict_get "tool_results" it with
        | Some (VDict tool_results) =>
            match dict_get "content" tool_results with
            | None => true
            | Some (VList results) => forallb entry_ok results
            | Some _ => false
            end
        | _ => true
        end
      else true
  | _ => true
  end.

Definition delta_ok (delta : dict) : bool :=
  forallb item_ok (sequence (dict_get "content" delta)).

(** The entries of one member of the nested [content]. *)
Definition result_entries (r : value) : list dict :=
  match r with
  | VDict rd => entry_json rd
  | _ => []
  end.

(** The entries of one member of a delta's [content]. *)
Definition value_entries (item : value) : list dict :=
  match item with
  | VDict it => item_entries it
  | _ => []
  end.

(** [extends st st' es]: [st'] is [st] after the entries [es], as far as
    the statement and the citations go. *)
Definition extends (st st' : aggregate) (es : list dict) : Prop :=
  sql st' = last (flat_map entry_sql es) (sql st) /\
  citations st' =
    citations st ++
    map citation_record (filter is_object (flat_map entry_search_results es)).

(** The payload [execute_sql] posts for a statement. *)
Definition statement_payload (sql : string) : value :=
  VDict [("statement", VStr (delete_all ";" sql)); ("timeout", VInt 60)].

(** [d.get(k)] on a row. *)
Fixpoint row_get (k : value) (d : row) : option value :=
  match d with
  | [] => None
  | (k', v) :: d' => if key_eqb k' k then Some v else row_get k d'
  end.

(** The value paired with the last occurrence of a name. *)
Definition last_value (name : string) (pairs : list (string * value))
  : option value :=
  fold_left
    (fun acc p => if String.eqb (fst p) name then Some (snd p) else acc)
    pairs None.

(** The rows of a result set whose columns are named [names]. *)
Definition result_set (names : list string) (rows : list (list value)) : value :=
  VDict [("resultSetMetaData",
          VDict [("rowType",
                  VList (map (fun n => VDict [("name", VStr n)]) names))]);
         ("data", VList (map VList rows))].

(** The row object of a row of values under the column names: the pairs
    of [zip] entered one after the other. *)
Definition row_object (names : list string) (vs : list value) : row :=
  fold_left (fun acc p => row_set (VStr (fst p)) (snd p) acc)
    (combine names vs) [].

Section Reading.

Variable json_loads : string -> result value.

(** The delta of the frame a line carries, if it carries one. *)
Definition frame_delta (raw_line : string) : option dict :=
  match payload_of raw_line with
  | Some payload =>
      match json_loads payload with
      | Ok evt => extract_delta evt
      | Raise _ => None
      end
  | None => None
  end.

Definition line_entries (raw_line : string) : list dict :=
  match frame_delta raw_line with
  | Some delta => delta_entries delta
  | None => []
  end.

(** Every tool-result entry of the stream, in stream order. *)
Definition stream_entries (lines : list string) : list dict :=
  flat_map line_entries lines.

(** The statements set along the stream, in stream order. *)
Definition sql_writes (lines : list string) : list string :=
  flat_map entry_sql (stream_entries lines).

(** The entries of every [searchResults] sequence, in stream order. *)
Definition search_results (lines : list string) : list value :=
  flat_map entry_search_results (stream_entries lines).

(** A line whose document parses, or fails with a decoding error only. *)
Definition line_ok (raw_line : string) : bool :=
  match payload_of raw_line with
  | Some payload =>
      match json_loads payload with
      | Ok evt =>
          match extract_delta evt with
          | Some delta => delta_ok delta
          | None => true
          end
      | Raise JSONDecodeError => true
      | Raise _ => false
      end
  | None => true
  end.

(** A stream read to its end whose frames follow the data model. *)
Definition well_typed (resp : sse_body) : Prop :=
  read_fault resp = None /\ forallb line_ok (aiter_lines resp) = true.

(** The lines the loop passes over by one of its tests: a blank line, a
    line that does not begin with [data:], an empty or [[DONE]] payload, a
    payload [json.loads] rejects with [JSONDecodeError], a document with
    no object at [delta] and none at [data.delta]. *)
Definition inert (raw_line : string) : Prop :=
  let line := strip raw_line in
  let payload := strip (drop (String.length "data:") line) in
  line = ""
  \/ startswith line "data:" = false
  \/ payload = ""
  \/ payload = "[DONE]"
  \/ json_loads payload = Raise JSONDecodeError
  \/ exists evt, json_loads payload = Ok evt
       /\ object_at ["delta"] evt = false
       /\ object_at ["data"; "delta"] evt = false.

End Reading.

(** ** Sample documents and collaborators *)

Definition dquote : ascii := "034"%char.

(** The text of a JSON document, written with [`] where it has a double
    quote. *)
Fixpoint doc (s : string) : string :=
  match s with
  | EmptyString => EmptyString
  | String c s' => String (if Ascii.eqb c "`"%char then dquote else c) (doc s')
  end.

Definition text_item (s : string) : value :=
  VDict [("type", VStr "text"); ("text", VStr s)].

Definition json_item (entries : list value) : value :=
  VDict [("type", VStr "tool_results");
         ("tool_results", VDict [("content", VList entries)])].

Definition json_entry (j : dict) : value :=
  VDict [("type", VStr "json"); ("json", VDict j)].

Definition delta_event (items : list value) : value :=
  VDict [("delta", VDict [("content", VList items)])].

(** The documents of the sample streams with the objects they denote. *)
Definition sample_documents : list (string * value) :=
  [ (doc "{`delta`:{`content`:[{`type`:`text`,`text`:`Hello`}]}}",
     delta_event [text_item "Hello"]);
    (doc "{`delta`:{`content`:[{`type`:`text`,`text`:` `}]}}",
     delta_event [text_item " "]);
    (doc "{`delta`:{`content`:[{`type`:`text`,`text`:`world`}]}}",
     delta_event [text_item "world"]);
    (doc "{`delta`:{`content`:[{`type`:`tool_results`,`tool_results`:{`content`:[{`type`:`json`,`json`:{`sql`:`SELECT 1`,`searchResults`:[{`source_id`:`a`,`doc_id`:`d1`},{`source_id`:`b`}]}}]}}]}}",
     delta_event [json_item [json_entry
       [("sql", VStr "SELECT 1");
        ("searchResults",
         VList [VDict [("source_id", VStr "a"); ("doc_id", VStr "d1")];
                VDict [("source_id", VStr "b")]])]]]);
    (doc "{`delta`:{`content`:[{`type`:`tool_results`,`tool_results`:{`content`:[{`type`:`json`,`json`:{`sql`:`SELECT 'a;b';`}},{`type`:`json`,`json`:{`sql`:7,`searchResults`:[{`source_id`:`a`,`doc_id`:`d1`}]}}]}}]}}",
     delta_event [json_item
       [json_entry [("sql", VStr "SELECT 'a;b';")];
        json_entry [("sql", VInt 7);
                    ("searchResults",
                     VList [VDict [("source_id", VStr "a");
                                   ("doc_id", VStr "d1")]])]]]);
    (doc "{`delta`:{`content`:[{`type`:`text`,`text`:null}]}}",
     delta_event [VDict [("type", VStr "text"); ("text", VNone)]]);
    (doc "{`event`:`ping`}", VDict [("event", VStr "ping")]) ].

(** [json.loads] on the sample documents; the other payloads of the
    sample streams are not JSON. *)
Definition sample_loads (s : string) : result value :=
  match find (fun p => String.eqb (fst p) s) sample_documents with
  | Some p => Ok (snd p)
  | None => Raise JSONDecodeError
  end.

Definition data_line (n : nat) : string :=
  ("data: " ++ nth n (map fst sample_documents) "")%string.

(** Three text frames, two frames of tool results, and lines that carry
    no frame. *)
Definition sample_stream : sse_body :=
  mk_body
    [ data_line 0; ""; data_line 1; ": keep-alive"; data_line 2;
      data_line 3; "data: not json"; data_line 6; data_line 4;
      "data: [DONE]" ]
    None.

(** ** Sample collaborators for [run_cortex_agents] *)

Definition sample_uuid4 (n : nat) : string :=
  match n with
  | O => "6f1c2a0e-0000-4000-8000-000000000000"
  | S _ => "6f1c2a0e-0000-4000-8000-000000000001"
  end.

(** An agent that streams [sample_stream] whatever it is asked. *)
Definition sample_agent (request_id : string) (payload : value) : result sse_body :=
  Ok sample_stream.

(** An agent whose stream sets no statement. *)
Definition quiet_agent (request_id : string) (payload : value) : result sse_body :=
  Ok (mk_body ["data: [DONE]"] None).

(** Execute endpoints: one that answers with a two-column result set
    whose columns share a name, one that reports an error, and one whose
    transport times out. *)
Definition answering_endpoint (request_id : string) (payload : value)
  : result http_response :=
  Ok (mk_response 200 "..."
        (Ok (VDict [("resultSetMetaData",
                     VDict [("rowType", VList [VDict [("name", VStr "A")];
                                               VDict [("name", VStr "A")]])]);
                    ("data", VList [VList [VStr "1"; VStr "2"; VStr "3"]])]))).

Definition refusing_endpoint (request_id : string) (payload : value)
  : result http_response :=
  Ok (mk_response 422 "SQL compilation error" (Raise JSONDecodeError)).

Definition failing_endpoint (request_id : string) (payload : value)
  : result http_response :=
  Raise (LibraryError "ReadTimeout").

Definition sample_tabulate (rows : list row) : result string := Ok "+---+".

Definition sample_str (e : exn) : string :=
  match e with
  | LibraryError what => what
  | _ => ""
  end.

Definition new_world : world := mk_world 0 [].

(** ** Further readings of the code *)

(** The strings of a list, one after the other. *)
Definition join (l : list string) : string := fold_right String.append "" l.

(** The fragment an object adds to the text: its [text] field when that
    is a string. *)
Definition dict_text (d : dict) : string :=
  match dict_get "text" d with
  | Some (VStr s) => s
  | _ => ""
  end.

(** The fragments of one content item: the text of a text item, the
    texts of the tool-result objects of a tool-results item. *)
Definition item_fragments (it : dict) : list string :=
  if eq_str (get "type" it) "text" then [dict_text it]
  else map dict_text (item_entries it).

Definition delta_fragments (delta : dict) : list string :=
  flat_map item_fragments (objects (sequence (dict_get "content" delta))).

(** Whether a computation returns, and what it raises if it does not. *)
Definition outcome {A : Type} (r : result A) : result unit :=
  match r with
  | Ok _ => Ok tt
  | Raise e => Raise e
  end.

(** [st] carried on by what a fold from the initial state has gathered
    over lines that set the statements [writes]. *)
Definition carry_on (st gathered : aggregate) (writes : list string) : aggregate :=
  mk_aggregate (text st ++ text gathered)
    (last writes (sql st))
    (citations st ++ citations gathered).

Definition request_id_of (q : request) : string :=
  match q with
  | AgentRun request_id _ => request_id
  | Statements request_id _ => request_id
  end.

(** The characters of a string. *)
Definition occurs (c : ascii) (s : string) : Prop :=
  In c (list_ascii_of_string s).

(** Lines 17-31: what importing the module does with the two mandatory
    settings read by [os.getenv]: it raises [RuntimeError] with a message,
    or goes on with [API_HEADERS] built from the token. *)
Inductive import_outcome : Type :=
| RuntimeError (message : string)
| Imported (API_HEADERS : list (string * string)).

Definition unset (v : option string) : bool :=
  match v with
  | None => true
  | Some s => String.eqb s ""
  end.

Definition import_module (SNOWFLAKE_ACCOUNT_URL SNOWFLAKE_PAT : option string)
  : import_outcome :=
  match SNOWFLAKE_PAT with
  | None => RuntimeError "Set SNOWFLAKE_PAT environment variable"
  | Some token =>
      if String.eqb token ""
      then RuntimeError "Set SNOWFLAKE_PAT environment variable"
      else if unset SNOWFLAKE_ACCOUNT_URL
      then RuntimeError "Set SNOWFLAKE_ACCOUNT_URL environment variable"
      else Imported
             [("Authorization", ("Bearer " ++ token)%string);
              ("X-Snowflake-Authorization-Token-Type",
               "PROGRAMMATIC_ACCESS_TOKEN");
              ("Content-Type", "application/json")]
  end.

Section Fragments.

Variable json_loads : string -> result value.

Definition line_fragments (raw_line : string) : list string :=
  match frame_delta json_loads raw_line with
  | Some delta => delta_fragments delta
  | None => []
  end.

(** Every text fragment of the stream, in stream order. *)
Definition stream_fragments (lines : list string) : list string :=
  flat_map line_fragments lines.

End Fragments.

(** A frame whose search results are an object, a string and a number,
    and the decoder that knows it. *)
Definition loose_document : string :=
  doc "{`delta`:{`content`:[{`type`:`tool_results`,`tool_results`:{`content`:[{`type`:`json`,`json`:{`text`:`see `,`searchResults`:[{`source_id`:`a`},`x`,3]}}]}}]}}".

Definition loose_loads (s : string) : result value :=
  if String.eqb s loose_document then
    Ok (delta_event [json_item [json_entry
          [("text", VStr "see ");
           ("searchResults",
            VList [VDict [("source_id", VStr "a")]; VStr "x"; VInt 3])]]])
  else sample_loads s.

Definition loose_stream : sse_body :=
  mk_body [data_line 0; ("data:" ++ loose_document)%string; data_line 3] None.

(** The citations of [sample_stream] and the response to a call answered
    by [sample_agent] and [answering_endpoint]. *)
Definition sample_citations : list citation :=
  [mk_citation (VStr "a") (VStr "d1"); mk_citation (VStr "b") VNone;
   mk_citation (VStr "a") (VStr "d1")].

Definition sample_response : response_object :=
  mk_response_object "Hello world" "SELECT 'a;b';"
    (Some [[(VStr "A", VStr "2")]]) (Some "+---+") sample_citations.

(** A frame that sets a statement made of semicolons, the decoder that
    knows it, and the agent that streams it. *)
Definition semicolons_document : string :=
  doc "{`delta`:{`content`:[{`type`:`tool_results`,`tool_results`:{`content`:[{`type`:`json`,`json`:{`sql`:`;;`}}]}}]}}".

Definition semicolons_loads (s : string) : result value :=
  if String.eqb s semicolons_document then
    Ok (delta_event [json_item [json_entry [("sql", VStr ";;")]]])
  else sample_loads s.

Definition semicolons_agent (request_id : string) (payload : value)
  : result sse_body :=
  Ok (mk_body [("data: " ++ semicolons_document)%string] None).

(** A payload of 100000 open brackets, on which [json.loads] gives up with
    [RecursionError]; the decoder that knows it, and a stream with such a
    line between two frames. *)
Definition deep_payload : string := N.iter 100000 (String "["%char) "".

Definition deep_loads (s : string) : result value :=
  if String.eqb s deep_payload then Raise (LibraryError "RecursionError")
  else sample_loads s.

Definition deep_line : string := ("data: " ++ deep_payload)%string.

Definition deep_stream : sse_body :=
  mk_body [data_line 0; deep_line; data_line 3] None.

(** A line the loop passes over: it has no payload, or [json.loads]
    rejects its payload with [JSONDecodeError], or its document has no
    delta. *)
Definition passed_over (json_loads : string -> result value)
  (raw_line : string) : Prop :=
  match payload_of raw_line with
  | None => True
  | Some payload =>
      json_loads payload = Raise JSONDecodeError
      \/ exists evt, json_loads payload = Ok evt /\ extract_delta evt = None
  end.

(** A column descriptor that carries [name] among its fields. *)
Definition names_column (col : value) (name : string) : Prop :=
  exists d, col = VDict d /\ dict_get "name" d = Some (VStr name).

(** An execute endpoint that answers as the service does: an envelope
    with a code, a message and the result set, column descriptors with
    their types. *)
Definition service_answer : dict :=
  [("resultSetMetaData",
    VDict [("numRows", VInt 2);
           ("format", VStr "jsonv2");
           ("rowType",
            VList [VDict [("name", VStr "REGION"); ("type", VStr "text");
                          ("nullable", VBool true)];
                   VDict [("name", VStr "TOTAL"); ("type", VStr "fixed");
                          ("nullable", VBool false)]])]);
   ("data", VList [VList [VStr "EMEA"; VStr "12"];
                   VList [VStr "APAC"; VNone]]);
   ("code", VStr "090001");
   ("message", VStr "Statement executed successfully.")].

Definition service_endpoint (request_id : string) (payload : value)
  : result http_response :=
  Ok (mk_response 200 "..." (Ok (VDict service_answer))).

(** * Properties *)

(** ** Lists, strings and the loop combinator *)

Lemma last_cons_same {A : Type} (l : list A) (y d d' : A) :
  last (y :: l) d = last (y :: l) d'.
Proof.
  revert y; induction l as [|z l IH]; intros y; [reflexivity|].
  change (last (z :: l) d = last (z :: l) d'); apply IH.
Qed.

Lemma last_cons_default {A : Type} (l : list A) (x d : A) :
  last (x :: l) d = last l x.
Proof.
  destruct l as [|y l]; [reflexivity|].
  change (last (y :: l) d = last (y :: l) x); apply last_cons_same.
Qed.

Lemma last_app_default {A : Type} (l1 l2 : list A) (d : A) :
  last (l1 ++ l2) d = last l2 (last l1 d).
Proof.
  revert d; induction l1 as [|x l1 IH]; intros d; [reflexivity|].
  rewrite <- app_comm_cons, !last_cons_default; apply IH.
Qed.

Lemma eq_str_true (v : value) (s : string) :
  eq_str v s = true -> v = VStr s.
Proof.
  destruct v; simpl; try discriminate.
  intros H; apply String.eqb_eq in H; now subst.
Qed.

Lemma for_each_app {A S : Type} (body : S -> A -> result S) (xs ys : list A) (st : S) :
  for_each body (xs ++ ys) st = (st' <- for_each body xs st ;; for_each body ys st').
Proof.
  revert st; induction xs as [|x xs IH]; intros st; simpl; [reflexivity|].
  destruct (body st x); simpl; [apply IH | reflexivity].
Qed.

(** A loop whose body cannot raise on the members of the list returns. *)
Lemma for_each_total {A S : Type} (body : S -> A -> result S) (ok : A -> bool) :
  (forall x st, ok x = true -> exists st', body st x = Ok st') ->
  forall xs st, forallb ok xs = true -> exists st', for_each body xs st = Ok st'.
Proof.
  intros Hbody; induction xs as [|x xs IH]; intros st Hok; simpl.
  - now exists st.
  - simpl in Hok; apply andb_true_iff in Hok as [Hx Hxs].
    destruct (Hbody x st Hx) as [st1 ->]; simpl.
    now apply IH.
Qed.

(** ** What a returning fold has done to [sql] and [citations] *)

Lemma extends_nil (st : aggregate) : extends st st [].
Proof. split; simpl; [reflexivity | now rewrite app_nil_r]. Qed.

Lemma extends_app (a b c : aggregate) (es1 es2 : list dict) :
  extends a b es1 -> extends b c es2 -> extends a c (es1 ++ es2).
Proof.
  intros [Hs1 Hc1] [Hs2 Hc2]; split.
  - now rewrite flat_map_app, last_app_default, <- Hs1.
  - now rewrite Hc2, Hc1, flat_map_app, filter_app, map_app, app_assoc.
Qed.

Lemma for_each_extends {A : Type} (body : aggregate -> A -> result aggregate)
  (entries : A -> list dict) :
  (forall st x st', body st x = Ok st' -> extends st st' (entries x)) ->
  forall xs st st', for_each body xs st = Ok st' ->
    extends st st' (flat_map entries xs).
Proof.
  intros Hbody; induction xs as [|x xs IH]; intros st st' H; simpl in *.
  - injection H as <-; apply extends_nil.
  - destruct (body st x) as [st1|e] eqn:Hx; simpl in H; [|discriminate].
    eapply extends_app; eauto.
Qed.

Lemma fold_citations (l : list value) (cs : list citation) :
  fold_left append_citation l cs =
  cs ++ map citation_record (filter is_object l).
Proof.
  revert cs; induction l as [|s l IH]; intros cs; simpl.
  - now rewrite app_nil_r.
  - rewrite IH; destruct s; simpl; try reflexivity.
    now rewrite <- app_assoc.
Qed.

Lemma add_text_frame (st st' : aggregate) (d : dict) :
  add_text st d = Ok st' -> sql st' = sql st /\ citations st' = citations st.
Proof.
  unfold add_text; destruct (get_default "text" (VStr "") d); try discriminate.
  intros H; injection H as <-; now split.
Qed.

Lemma add_text_extends (st st' : aggregate) (d : dict) :
  add_text st d = Ok st' -> extends st st' [].
Proof.
  intros H; apply add_text_frame in H as [Hs Hc]; split; simpl;
    [assumption | now rewrite app_nil_r].
Qed.

Lemma capture_extends (st : aggregate) (j : dict) :
  extends st (capture_citations (capture_sql st j) j) [j].
Proof.
  unfold extends, capture_citations, capture_sql, entry_search_results,
    entry_sql, get, get_default, sequence; simpl; rewrite !app_nil_r.
  destruct (dict_get "sql" j) as [[]|], (dict_get "searchResults" j) as [[]|];
    simpl; rewrite ?fold_citations, ?app_nil_r; split; reflexivity.
Qed.

Lemma result_entries_objects (l : list value) :
  flat_map result_entries l = flat_map entry_json (objects l).
Proof.
  unfold objects; induction l as [|r l IH]; simpl; [reflexivity|].
  rewrite flat_map_app, IH; destruct r; simpl; rewrite ?app_nil_r; reflexivity.
Qed.

Lemma result_entries_strings {A : Type} (f : A -> string) (l : list A) :
  flat_map result_entries (map (fun x => VStr (f x)) l) = [].
Proof. induction l; simpl; auto. Qed.

Lemma result_entries_chars (s : string) : flat_map result_entries (chars s) = [].
Proof. induction s; simpl; auto. Qed.

Lemma fold_result_extends (st : aggregate) (r : value) (st' : aggregate) :
  fold_result st r = Ok st' -> extends st st' (result_entries r).
Proof.
  destruct r as [| | | | |l|rd]; simpl;
    try (intros H; injection H as <-; apply extends_nil).
  unfold entry_json, get_default.
  destruct (eq_str (get "type" rd) "json");
    [|intros H; injection H as <-; apply extends_nil].
  destruct (dict_get "json" rd) as [[| | | | | |j]|];
    try (intros H; injection H as <-; apply extends_nil).
  - destruct (add_text st j) as [st1|e] eqn:Ht; simpl; [|discriminate].
    intros H; injection H as <-.
    change [j] with ([] ++ [j]).
    eapply extends_app; [eapply add_text_extends; eassumption|].
    apply capture_extends.
  - intros H; injection H as <-.
    unfold add_text, capture_citations, capture_sql; simpl.
    split; simpl; [reflexivity | now rewrite app_nil_r].
Qed.

Lemma iter_content (tool_results : dict) (results : list value) :
  iter (py_or (get_default "content" (VList []) tool_results) (VList []))
    = Ok results ->
  flat_map result_entries results =
  flat_map entry_json (objects (sequence (dict_get "content" tool_results))).
Proof.
  unfold get_default, py_or.
  destruct (dict_get "content" tool_results) as [v|]; simpl;
    [|intros H; injection H as <-; reflexivity].
  destruct v as [|b|z|f|s|l|d]; simpl.
  - intros H; injection H as <-; reflexivity.
  - destruct b; simpl; [discriminate | intros H; injection H as <-; reflexivity].
  - destruct (Z.eqb z 0); simpl;
      [intros H; injection H as <-; reflexivity | discriminate].
  - destruct (float_is_zero f); simpl;
      [intros H; injection H as <-; reflexivity | discriminate].
  - destruct (String.eqb s ""); simpl; intros H; injection H as <-;
      [reflexivity | apply result_entries_chars].
  - destruct l; simpl; intros H; injection H as <-;
      [reflexivity | apply (result_entries_objects (_ :: _))].
  - destruct d; simpl; intros H; injection H as <-;
      [reflexivity | apply (result_entries_strings fst (_ :: _))].
Qed.

Lemma value_entries_objects (l : list value) :
  flat_map value_entries l = flat_map item_entries (objects l).
Proof.
  unfold objects; induction l as [|r l IH]; simpl; [reflexivity|].
  rewrite flat_map_app, IH; destruct r; simpl; rewrite ?app_nil_r; reflexivity.
Qed.

Lemma fold_item_extends (st : aggregate) (item : value) (st' : aggregate) :
  fold_item st item = Ok st' -> extends st st' (value_entries item).
Proof.
  destruct item as [| | | | |l|it]; simpl;
    try (intros H; injection H as <-; apply extends_nil).
  unfold item_entries, get_default.
  destruct (eq_str (get "type" it) "text") eqn:Htext.
  - apply eq_str_true in Htext; rewrite Htext; simpl.
    apply add_text_extends.
  - destruct (eq_str (get "type" it) "tool_results");
      [|intros H; injection H as <-; apply extends_nil].
    destruct (dict_get "tool_results" it) as [[| | | | | |tool_results]|];
      try (intros H; injection H as <-; apply extends_nil).
    destruct (iter _) as [results|e] eqn:Hiter; simpl; [|discriminate].
    intros H; rewrite <- (iter_content _ _ Hiter).
    revert H; apply for_each_extends; exact fold_result_extends.
Qed.

Lemma fold_delta_extends (st : aggregate) (delta : dict) (st' : aggregate) :
  fold_delta st delta = Ok st' -> extends st st' (delta_entries delta).
Proof.
  unfold fold_delta, delta_entries, get_default, sequence.
  destruct (dict_get "content" delta) as [[| | | | |content_items|]|];
    try (intros H; injection H as <-; apply extends_nil).
  rewrite <- value_entries_objects.
  apply for_each_extends; exact fold_item_extends.
Qed.

(** ** When the fold returns *)

Lemma add_text_total (st : aggregate) (d : dict) :
  text_ok d = true -> exists st', add_text st d = Ok st'.
Proof.
  unfold text_ok, add_text, get_default.
  destruct (dict_get "text" d) as [[]|]; try discriminate; eauto.
Qed.

Lemma fold_result_total (r : value) (st : aggregate) :
  entry_ok r = true -> exists st', fold_result st r = Ok st'.
Proof.
  destruct r as [| | | | | |rd]; simpl; eauto.
  unfold entry_json, get_default.
  destruct (eq_str (get "type" rd) "json"); eauto.
  destruct (dict_get "json" rd) as [[| | | | | |j]|]; simpl; eauto.
  rewrite andb_true_r; intros Hj.
  destruct (add_text_total st j Hj) as [st1 ->]; simpl; eauto.
Qed.

Lemma fold_item_total (item : value) (st : aggregate) :
  item_ok item = true -> exists st', fold_item st item = Ok st'.
Proof.
  destruct item as [| | | | | |it]; simpl; eauto.
  destruct (eq_str (get "type" it) "text"); [apply add_text_total|].
  destruct (eq_str (get "type" it) "tool_results"); eauto.
  unfold get_default, py_or.
  destruct (dict_get "tool_results" it) as [[| | | | | |tool_results]|];
    simpl; eauto.
  destruct (dict_get "content" tool_results) as [[| | | | |results|]|];
    simpl; try discriminate; eauto.
  intros Hok; destruct results as [|r results]; simpl; eauto.
  apply (for_each_total fold_result entry_ok
           (fun x st0 => fold_result_total x st0) (r :: results) st Hok).
Qed.

Lemma fold_delta_total (delta : dict) (st : aggregate) :
  delta_ok delta = true -> exists st', fold_delta st delta = Ok st'.
Proof.
  unfold delta_ok, fold_delta, get_default, sequence.
  destruct (dict_get "content" delta) as [[| | | | |content_items|]|];
    simpl; eauto.
  apply for_each_total; intros x st0; apply fold_item_total.
Qed.

Section Decoding.

Variable json_loads : string -> result value.

Lemma fold_line_extends (st : aggregate) (raw_line : string) (st' : aggregate) :
  fold_line json_loads st raw_line = Ok st' ->
  extends st st' (line_entries json_loads raw_line).
Proof.
  unfold fold_line, line_entries, frame_delta.
  destruct (payload_of raw_line) as [payload|];
    [|intros H; injection H as <-; apply extends_nil].
  destruct (json_loads payload) as [evt|e].
  - destruct (extract_delta evt) as [delta|];
      [apply fold_delta_extends | intros H; injection H as <-; apply extends_nil].
  - destruct e; try discriminate.
    intros H; injection H as <-; apply extends_nil.
Qed.

Lemma fold_lines_extends (lines : list string) (st st' : aggregate) :
  for_each (fold_line json_loads) lines st = Ok st' ->
  extends st st' (stream_entries json_loads lines).
Proof. apply for_each_extends; exact fold_line_extends. Qed.

Lemma fold_line_total (raw_line : string) (st : aggregate) :
  line_ok json_loads raw_line = true ->
  exists st', fold_line json_loads st raw_line = Ok st'.
Proof.
  unfold line_ok, fold_line.
  destruct (payload_of raw_line) as [payload|]; eauto.
  destruct (json_loads payload) as [evt|e].
  - destruct (extract_delta evt) as [delta|]; eauto.
    apply fold_delta_total.
  - destruct e; try discriminate; eauto.
Qed.

Lemma process_returns (resp : sse_body) :
  well_typed json_loads resp ->
  exists st, for_each (fold_line json_loads) (aiter_lines resp) initial = Ok st
    /\ process_sse_response json_loads resp = Ok (text st, sql st, citations st).
Proof.
  intros [Hfault Hlines].
  destruct (for_each_total (fold_line json_loads) (line_ok json_loads)
              (fun x st0 => fold_line_total x st0) _ initial Hlines) as [st Hst].
  exists st; split; [assumption|].
  unfold process_sse_response; rewrite Hst, Hfault; reflexivity.
Qed.

Lemma process_inv (resp : sse_body) (t s : string) (c : list citation) :
  process_sse_response json_loads resp = Ok (t, s, c) ->
  exists st, for_each (fold_line json_loads) (aiter_lines resp) initial = Ok st
    /\ t = text st /\ s = sql st /\ c = citations st.
Proof.
  unfold process_sse_response.
  destruct (for_each _ _ _) as [st|e]; simpl; [|discriminate].
  destruct (read_fault resp); [discriminate|].
  intros H; injection H as <- <- <-; eauto.
Qed.

End Decoding.

(** ** The decoder and the aggregator *)

Lemma payload_of_cases (raw_line : string) :
  payload_of raw_line = None \/
  payload_of raw_line =
    Some (strip (drop (String.length "data:") (strip raw_line))).
Proof.
  unfold payload_of.
  destruct (String.eqb raw_line ""); [now left|].
  destruct (negb (startswith (strip raw_line) "data:")); [now left|].
  destruct (_ || _); [now left | now right].
Qed.

Lemma extract_delta_none (evt : value) :
  object_at ["delta"] evt = false ->
  object_at ["data"; "delta"] evt = false ->
  extract_delta evt = None.
Proof.
  unfold object_at, extract_delta, get; destruct evt as [| | | | | |e]; simpl; auto.
  destruct (dict_get "delta" e) as [[]|]; try discriminate;
    destruct (dict_get "data" e) as [[| | | | | |data]|]; simpl; auto;
    destruct (dict_get "delta" data) as [[]|]; auto; discriminate.
Qed.

Section Stream.

Variable json_loads : string -> result value.

(** C1. The statement [process_sse_response] returns is the one set by
    the last tool-result entry, in stream order, whose [sql] field is a
    string (the empty string when no entry sets one); on a stream whose
    frames follow the data model the function does return; and an entry
    whose [sql] field is not a string leaves the state as it was. *)
Theorem sql_last_writer_wins (resp : sse_body) :
  (forall t s c,
     process_sse_response json_loads resp = Ok (t, s, c) ->
     s = last (sql_writes json_loads (aiter_lines resp)) "")
  /\ (well_typed json_loads resp ->
      exists t c,
        process_sse_response json_loads resp =
        Ok (t, last (sql_writes json_loads (aiter_lines resp)) "", c))
  /\ (forall st j, (forall s, get "sql" j <> VStr s) -> capture_sql st j = st).
Proof.
  split; [|split].
  - intros t s c H.
    apply process_inv in H as (st & Hst & _ & -> & _).
    apply fold_lines_extends in Hst as [Hsql _]; exact Hsql.
  - intros Hwt.
    destruct (process_returns json_loads resp Hwt) as (st & Hst & Hp).
    apply fold_lines_extends in Hst as [Hsql _].
    exists (text st), (citations st); rewrite Hp, Hsql; reflexivity.
  - intros st j Hj; unfold capture_sql.
    destruct (get "sql" j) eqn:E; try reflexivity.
    now elim (Hj s).
Qed.

(** C2. On a stream in which every member of every [searchResults]
    sequence is an object, the citations [process_sse_response] returns
    are the records of those members, one for each, in stream order and
    with repetitions kept; an absent [source_id] or [doc_id] is null. Such
    a stream whose frames follow the data model is processed to the end. *)
Theorem citations_in_stream_order (resp : sse_body) :
  forallb is_object (search_results json_loads (aiter_lines resp)) = true ->
  (forall t s c,
     process_sse_response json_loads resp = Ok (t, s, c) ->
     c = map citation_record (search_results json_loads (aiter_lines resp)))
  /\ (well_typed json_loads resp ->
      exists t s,
        process_sse_response json_loads resp =
        Ok (t, s, map citation_record
                    (search_results json_loads (aiter_lines resp)))).
Proof.
  intros Hobj.
  assert (Hall : filter is_object (search_results json_loads (aiter_lines resp))
                 = search_results json_loads (aiter_lines resp)).
  { apply forallb_filter_id; exact Hobj. }
  split.
  - intros t s c H.
    apply process_inv in H as (st & Hst & _ & _ & ->).
    apply fold_lines_extends in Hst as [_ Hc].
    rewrite Hc.
    fold (search_results json_loads (aiter_lines resp)).
    now rewrite Hall.
  - intros Hwt.
    destruct (process_returns json_loads resp Hwt) as (st & Hst & Hp).
    apply fold_lines_extends in Hst as [_ Hc].
    exists (text st), (sql st); rewrite Hp, Hc.
    fold (search_results json_loads (aiter_lines resp)).
    now rewrite Hall.
Qed.

(** X20. A line that is blank, or does not begin with [data:], or
    carries an empty or [[DONE]] payload, or a payload [json.loads]
    rejects with [JSONDecodeError], or a document with no object at
    [delta] and none at [data.delta], leaves the state unchanged without
    raising, and the stream is processed as if the line were not there. *)
Theorem inert_line_is_skipped (raw_line : string) :
  inert json_loads raw_line ->
  (forall st, fold_line json_loads st raw_line = Ok st)
  /\ (forall before after st,
        for_each (fold_line json_loads) (before ++ raw_line :: after) st =
        for_each (fold_line json_loads) (before ++ after) st).
Proof.
  intros Hinert.
  assert (Hskip : forall st, fold_line json_loads st raw_line = Ok st).
  { intros st; unfold fold_line.
    destruct (payload_of_cases raw_line) as [-> | Hp]; [reflexivity|].
    revert Hp; unfold payload_of, inert in *.
    destruct (String.eqb raw_line ""); [discriminate|].
    destruct Hinert as [H | [H | [H | [H | [H | (evt & H & Hd & Hdd)]]]]].
    - rewrite H; discriminate.
    - rewrite H; discriminate.
    - destruct (negb _); [discriminate|]; rewrite H; discriminate.
    - destruct (negb _); [discriminate|]; rewrite H; discriminate.
    - intros ->; rewrite H; reflexivity.
    - intros ->; rewrite H, (extract_delta_none evt Hd Hdd); reflexivity. }
  split; [exact Hskip|].
  intros before after st; rewrite !for_each_app.
  destruct (for_each (fold_line json_loads) before st) as [st1|e]; simpl;
    [now rewrite Hskip | reflexivity].
Qed.

End Stream.

(** C3. A line whose payload [json.loads] refuses with an exception
    other than [JSONDecodeError] is not passed over: the exception leaves
    the loop body, the lines that follow are not read, and it leaves
    [process_sse_response] whatever the lines before have gathered. *)
Theorem undecodable_payload_aborts_stream
  (json_loads : string -> result value) (raw_line payload : string) (e : exn) :
  payload_of raw_line = Some payload ->
  json_loads payload = Raise e ->
  e <> JSONDecodeError ->
  (forall st, fold_line json_loads st raw_line = Raise e)
  /\ (forall before after st st1,
        for_each (fold_line json_loads) before st = Ok st1 ->
        for_each (fold_line json_loads) (before ++ raw_line :: after) st =
        Raise e)
  /\ (forall before after fault,
        (exists st1, for_each (fold_line json_loads) before initial = Ok st1) ->
        process_sse_response json_loads
          (mk_body (before ++ raw_line :: after) fault) = Raise e).
Proof.
  intros Hp Hj Hne.
  assert (Hline : forall st, fold_line json_loads st raw_line = Raise e).
  { intros st; unfold fold_line; rewrite Hp, Hj.
    destruct e; try reflexivity; now elim Hne. }
  split; [exact Hline|]; split.
  - intros before after st st1 Hb.
    rewrite for_each_app, Hb; simpl; now rewrite Hline.
  - intros before after fault [st1 Hb].
    unfold process_sse_response; simpl.
    rewrite for_each_app, Hb; simpl; now rewrite Hline.
Qed.

(** C4. Folding a delta raises [TypeError] when a [text] field is not a
    string, in a text item or in a tool-result object, and when the nested
    [content] is a number or [true]; the items that follow are not
    processed, and the exception leaves [process_sse_response]: in
    the stream below the second line carries a text item whose [text] is
    [null]. *)
Theorem fold_delta_raises :
  fold_delta initial
    [("content", VList [VDict [("type", VStr "text"); ("text", VNone)];
                        text_item "still to come"])]
    = Raise TypeError
  /\ fold_delta initial
       [("content", VList [json_item [json_entry [("text", VInt 1);
                                                  ("sql", VStr "SELECT 1")]]])]
     = Raise TypeError
  /\ fold_delta initial
       [("content", VList [VDict [("type", VStr "tool_results");
                                  ("tool_results",
                                   VDict [("content", VInt 5)])]])]
     = Raise TypeError
  /\ process_sse_response sample_loads
       (mk_body [data_line 0; data_line 5; data_line 3] None)
     = Raise TypeError.
Proof. repeat split. Qed.

(** ** The executor and the assembler *)

Lemma replace_semicolons (s : string) : replace ";" "" s = delete_all ";" s.
Proof.
  unfold replace; induction s as [|c s IH]; [reflexivity|].
  cbn [replace_from delete_all String.eqb String.prefix String.length].
  destruct (ascii_dec ";" c) as [<- | Hne].
  - replace (String.prefix "" s) with true by (destruct s; reflexivity).
    simpl; exact IH.
  - replace (Ascii.eqb c ";") with false
      by (symmetry; apply Ascii.eqb_neq; congruence).
    now rewrite IH.
Qed.

Section Assembly.

Variable json_loads : string -> result value.
Variable uuid4 : nat -> string.
Variable SEMANTIC_MODEL_FILE : option string.
Variable CORTEX_SEARCH_SERVICE : option string.
Variable statements_endpoint : string -> value -> result http_response.
Variable agent_endpoint : string -> value -> result sse_body.
Variable tabulate : list row -> result string.
Variable str_exn : exn -> string.

Local Abbreviation payload_for :=
  (agent_payload SEMANTIC_MODEL_FILE CORTEX_SEARCH_SERVICE).
Local Abbreviation run :=
  (run_cortex_agents json_loads uuid4 SEMANTIC_MODEL_FILE CORTEX_SEARCH_SERVICE
     statements_endpoint agent_endpoint tabulate str_exn).
Local Abbreviation execute := (execute_sql uuid4 statements_endpoint).
Local Abbreviation asked_at :=
  (asked uuid4 SEMANTIC_MODEL_FILE CORTEX_SEARCH_SERVICE).

Lemma execute_sql_posts (sql : string) (w : world) :
  snd (execute sql w) =
  mk_world (S (drawn w))
    (sent w ++ [Statements (uuid4 (drawn w)) (statement_payload sql)]).
Proof.
  unfold execute_sql, statement_payload; simpl; rewrite replace_semicolons.
  destruct (statements_endpoint _ _) as [r|e]; [|reflexivity].
  destruct (Z.eqb (status_code r) 200); reflexivity.
Qed.

Lemma run_after_stream (query : string) (w : world) (resp : sse_body)
  (t s : string) (c : list citation) :
  agent_endpoint (uuid4 (drawn w)) (payload_for query) = Ok resp ->
  process_sse_response json_loads resp = Ok (t, s, c) ->
  run query w =
  (Ok (fst (assemble uuid4 statements_endpoint tabulate str_exn t s c
              (asked_at query w))),
   snd (assemble uuid4 statements_endpoint tabulate str_exn t s c
          (asked_at query w))).
Proof.
  intros Ha Hp; unfold run_cortex_agents, fresh_uuid, post; simpl.
  rewrite Ha, Hp; fold (asked_at query w).
  destruct (assemble _ _ _ _ _ _ _ _); reflexivity.
Qed.

Local Abbreviation assemble_with :=
  (assemble uuid4 statements_endpoint tabulate str_exn).

Lemma assemble_text (t s : string) (c : list citation) (w : world) :
  out_text (fst (assemble_with t s c w)) =
  if String.eqb t "" then "No text response generated." else t.
Proof.
  unfold assemble; destruct (String.eqb s "");
    [|destruct (try_execute _ _ _ _ _) as [[[a b]|e] w1]]; reflexivity.
Qed.

Lemma assemble_sql (t s : string) (c : list citation) (w : world) :
  out_sql (fst (assemble_with t s c w)) =
  if String.eqb s "" then "NO_SQL_GENERATED" else s.
Proof.
  unfold assemble; destruct (String.eqb s "");
    [|destruct (try_execute _ _ _ _ _) as [[[a b]|e] w1]]; reflexivity.
Qed.

Lemma assemble_world (t s : string) (c : list citation) (w : world) :
  s <> "" ->
  snd (assemble_with t s c w) =
  mk_world (S (drawn w))
    (sent w ++ [Statements (uuid4 (drawn w)) (statement_payload s)]).
Proof.
  intros Hs; apply String.eqb_neq in Hs.
  unfold assemble, try_execute; rewrite Hs.
  rewrite <- execute_sql_posts.
  destruct (execute s w) as [results w1]; simpl.
  destruct (r <- results ;; tabulate_results tabulate r) as [[a b]|e];
    reflexivity.
Qed.

(** C5. Whatever the statement, [execute_sql] posts one request whose
    [statement] field is the statement with every semicolon deleted, those
    inside quoted literals too, and whose [timeout] field is 60. *)
Theorem execute_sql_strips_semicolons (sql : string) (w : world) :
  sent (snd (execute sql w)) =
  sent w ++
  [Statements (uuid4 (drawn w))
     (VDict [("statement", VStr (delete_all ";" sql)); ("timeout", VInt 60)])].
Proof. rewrite execute_sql_posts; reflexivity. Qed.

(** C6. When the stream has been aggregated, [run_cortex_agents] returns
    a response whose [text] is not empty and is the placeholder when the
    aggregated text is empty; when the aggregated statement is empty, the
    response has the sentinel as [sql], no [results] and no
    [results_table], and the agent-run request is the only one posted. *)
Theorem empty_statement_is_not_executed (query : string) (w : world)
  (resp : sse_body) (t s : string) (c : list citation) :
  agent_endpoint (uuid4 (drawn w)) (payload_for query) = Ok resp ->
  process_sse_response json_loads resp = Ok (t, s, c) ->
  exists r w',
    run query w = (Ok r, w')
    /\ out_text r <> ""
    /\ (t = "" -> out_text r = "No text response generated.")
    /\ (s = "" ->
        out_sql r = "NO_SQL_GENERATED"
        /\ out_results r = None
        /\ out_results_table r = None
        /\ sent w' =
           sent w ++ [AgentRun (uuid4 (drawn w)) (payload_for query)]).
Proof.
  intros Ha Hp; rewrite (run_after_stream _ _ _ _ _ _ Ha Hp).
  eexists; eexists; split; [reflexivity|].
  rewrite assemble_text.
  split; [|split].
  - destruct (String.eqb t "") eqn:Et; [discriminate|].
    intros ->; discriminate.
  - intros ->; reflexivity.
  - intros ->; repeat split.
Qed.

(** C7. When the aggregated statement is not empty and the executor
    raises, or the reading of what it returned (the tabulation included)
    raises, [run_cortex_agents] still returns a response: its [results]
    is one record whose [error] is [SQL execution failed: ] followed by
    the text of the exception, and its [results_table] is that string. *)
Theorem execution_exception_is_embedded (query : string) (w : world)
  (resp : sse_body) (t s : string) (c : list citation) (e : exn) :
  agent_endpoint (uuid4 (drawn w)) (payload_for query) = Ok resp ->
  process_sse_response json_loads resp = Ok (t, s, c) ->
  s <> "" ->
  (fst (execute s (asked_at query w)) = Raise e
   \/ exists results,
        fst (execute s (asked_at query w)) = Ok results
        /\ tabulate_results tabulate results = Raise e) ->
  exists r w',
    run query w = (Ok r, w')
    /\ out_results r =
       Some [[(VStr "error", VStr ("SQL execution failed: " ++ str_exn e))]]
    /\ out_results_table r = Some ("SQL execution failed: " ++ str_exn e)%string.
Proof.
  intros Ha Hp Hs Hraise; rewrite (run_after_stream _ _ _ _ _ _ Ha Hp).
  eexists; eexists; split; [reflexivity|].
  apply String.eqb_neq in Hs.
  unfold assemble, try_execute; rewrite Hs.
  destruct (execute s (asked_at query w)) as [results w1]; simpl in *.
  destruct Hraise as [-> | (results' & -> & Ht)]; simpl; [now split|].
  rewrite Ht; now split.
Qed.

(** C8, as amended. When the aggregated statement is not empty and the
    execute endpoint answers with a status other than 200, [execute_sql]
    returns [{"error": "SQL API error: " + text}] with the text of the
    response, and in the response of [run_cortex_agents] [results] is the
    empty list and [results_table] is null. *)
Theorem reported_error_gives_empty_results (query : string) (w : world)
  (resp : sse_body) (t s : string) (c : list citation)
  (sql_response : http_response) :
  agent_endpoint (uuid4 (drawn w)) (payload_for query) = Ok resp ->
  process_sse_response json_loads resp = Ok (t, s, c) ->
  s <> "" ->
  statements_endpoint (uuid4 (S (drawn w))) (statement_payload s)
    = Ok sql_response ->
  status_code sql_response <> 200%Z ->
  fst (execute s (asked_at query w)) =
    Ok (VDict [("error",
                VStr ("SQL API error: " ++ response_text sql_response))])
  /\ exists r w',
       run query w = (Ok r, w')
       /\ out_results r = Some []
       /\ out_results_table r = None.
Proof.
  intros Ha Hp Hs He Hstatus.
  apply Z.eqb_neq in Hstatus; apply String.eqb_neq in Hs.
  assert (Hx : fst (execute s (asked_at query w)) =
               Ok (VDict [("error",
                           VStr ("SQL API error: " ++ response_text sql_response))])).
  { unfold execute_sql, statement_payload in *; simpl.
    rewrite replace_semicolons, He, Hstatus; reflexivity. }
  split; [exact Hx|].
  rewrite (run_after_stream _ _ _ _ _ _ Ha Hp).
  eexists; eexists; split; [reflexivity|].
  unfold assemble, try_execute; rewrite Hs.
  destruct (execute s (asked_at query w)) as [results w1]; simpl in *.
  rewrite Hx; simpl; now split.
Qed.

(** C9. When the aggregated statement is not empty, the [sql] of the
    response is that statement unchanged, semicolons included, whatever
    the execution does; the statement posted to the execute endpoint is
    the one with the semicolons deleted. *)
Theorem reported_sql_is_verbatim (query : string) (w : world)
  (resp : sse_body) (t s : string) (c : list citation) :
  agent_endpoint (uuid4 (drawn w)) (payload_for query) = Ok resp ->
  process_sse_response json_loads resp = Ok (t, s, c) ->
  s <> "" ->
  exists r w',
    run query w = (Ok r, w')
    /\ out_sql r = s
    /\ sent w' =
       sent w ++
       [AgentRun (uuid4 (drawn w)) (payload_for query);
        Statements (uuid4 (S (drawn w)))
          (VDict [("statement", VStr (delete_all ";" s)); ("timeout", VInt 60)])].
Proof.
  intros Ha Hp Hs; rewrite (run_after_stream _ _ _ _ _ _ Ha Hp).
  eexists; eexists; split; [reflexivity|].
  rewrite assemble_sql, (assemble_world _ _ _ _ Hs).
  apply String.eqb_neq in Hs; rewrite Hs.
  split; [reflexivity|].
  unfold asked, statement_payload; simpl; now rewrite <- app_assoc.
Qed.

End Assembly.

(** ** Row objects *)

Lemma key_eqb_str (k : value) (n : string) :
  key_eqb k (VStr n) = true -> k = VStr n.
Proof.
  destruct k as [| | | |s| |]; simpl; try discriminate.
  intros H; apply String.eqb_eq in H; now subst.
Qed.

Lemma row_get_set_same (n : string) (v : value) (d : row) :
  row_get (VStr n) (row_set (VStr n) v d) = Some v.
Proof.
  induction d as [|[k' v'] d IH]; simpl.
  - now rewrite String.eqb_refl.
  - destruct (key_eqb k' (VStr n)) eqn:E; simpl; rewrite E; auto.
Qed.

Lemma row_get_set_other (n m : string) (v : value) (d : row) :
  n <> m ->
  row_get (VStr m) (row_set (VStr n) v d) = row_get (VStr m) d.
Proof.
  intros Hnm; induction d as [|[k' v'] d IH]; simpl.
  - apply String.eqb_neq in Hnm; now rewrite Hnm.
  - destruct (key_eqb k' (VStr n)) eqn:E; simpl.
    + apply key_eqb_str in E; subst k'; simpl.
      apply String.eqb_neq in Hnm; now rewrite Hnm.
    + now rewrite IH.
Qed.

Lemma row_set_keys (n : string) (v : value) (d : row) :
  (row_get (VStr n) d <> None /\ map fst (row_set (VStr n) v d) = map fst d)
  \/ (row_get (VStr n) d = None
      /\ map fst (row_set (VStr n) v d) = map fst d ++ [VStr n]).
Proof.
  induction d as [|[k' v'] d IH]; simpl; [now right|].
  destruct (key_eqb k' (VStr n)) eqn:E; simpl.
  - left; split; [discriminate | reflexivity].
  - destruct IH as [[Hin Hk] | [Hout Hk]]; [left | right];
      (split; [assumption | now rewrite Hk]).
Qed.

Lemma row_get_none (n : string) (d : row) :
  row_get (VStr n) d = None -> ~ In (VStr n) (map fst d).
Proof.
  induction d as [|[k' v'] d IH]; simpl; [tauto|].
  destruct (key_eqb k' (VStr n)) eqn:E; [discriminate|].
  intros H [Hk | Hin]; [|now apply IH].
  subst k'; simpl in E; now rewrite String.eqb_refl in E.
Qed.

(** [dict] over pairs whose keys are strings never raises: it is a fold
    of [row_set]. *)
Lemma dict_of_strings (pairs : list (string * value)) (d : row) :
  dict_of (map (fun p => (VStr (fst p), snd p)) pairs) d =
  Ok (fold_left (fun acc p => row_set (VStr (fst p)) (snd p) acc) pairs d).
Proof.
  revert d; induction pairs as [|[n v] pairs IH]; intros d; simpl; auto.
Qed.

Lemma zip_strings (names : list string) (vs : list value) :
  zip (map VStr names) vs =
  map (fun p => (VStr (fst p), snd p)) (combine names vs).
Proof.
  unfold zip; revert vs; induction names as [|n names IH]; intros [|v vs];
    simpl; try reflexivity.
  now rewrite IH.
Qed.

Lemma fold_row_get (pairs : list (string * value)) (d : row) (name : string) :
  row_get (VStr name)
    (fold_left (fun acc p => row_set (VStr (fst p)) (snd p) acc) pairs d) =
  fold_left
    (fun acc p => if String.eqb (fst p) name then Some (snd p) else acc)
    pairs (row_get (VStr name) d).
Proof.
  revert d; induction pairs as [|[n v] pairs IH]; intros d; simpl; auto.
  rewrite IH; f_equal.
  destruct (String.eqb n name) eqn:E.
  - apply String.eqb_eq in E; subst; apply row_get_set_same.
  - apply String.eqb_neq in E; now apply row_get_set_other.
Qed.

Lemma fold_row_keys (pairs : list (string * value)) (d : row) :
  NoDup (map fst d) ->
  let d' := fold_left (fun acc p => row_set (VStr (fst p)) (snd p) acc) pairs d in
  NoDup (map fst d') /\
  incl (map fst d') (map VStr (map fst pairs) ++ map fst d).
Proof.
  revert d; induction pairs as [|[n v] pairs IH]; intros d Hnd; simpl.
  - split; [assumption | apply incl_refl].
  - assert (Hnd1 : NoDup (map fst (row_set (VStr n) v d))).
    { destruct (row_set_keys n v d) as [[_ ->] | [Hout ->]]; [assumption|].
      apply NoDup_app; [assumption | repeat constructor; simpl; tauto|].
      intros x Hx [<- | []]; exact (row_get_none n d Hout Hx). }
    destruct (IH _ Hnd1) as [Hnd' Hincl']; split; [assumption|].
    intros x Hx; apply Hincl' in Hx; apply in_app_or in Hx as [Hx | Hx].
    + right; apply in_or_app; now left.
    + destruct (row_set_keys n v d) as [[_ Hk] | [_ Hk]]; rewrite Hk in Hx.
      * right; apply in_or_app; now right.
      * apply in_app_or in Hx as [Hx | [<- | []]];
          [right; apply in_or_app; now right | now left].
Qed.

Lemma make_row_strings (names : list string) (vs : list value) :
  make_row (map VStr names) (VList vs) = Ok (row_object names vs).
Proof.
  unfold make_row; simpl; rewrite zip_strings; apply dict_of_strings.
Qed.

Lemma column_names (names : list string) :
  map_m subscript_name (map (fun n => VDict [("name", VStr n)]) names) =
  Ok (map VStr names).
Proof.
  induction names as [|n names IH]; simpl; [reflexivity|].
  now rewrite IH.
Qed.

Lemma rows_of_result_set (names : list string) (rows : list (list value)) :
  map_m (make_row (map VStr names)) (map VList rows) =
  Ok (map (row_object names) rows).
Proof.
  induction rows as [|vs rows IH]; [reflexivity|].
  cbn [map map_m]; rewrite make_row_strings, IH; reflexivity.
Qed.

Lemma zipped_names (names : list string) (vs : list value) :
  map fst (combine names vs) = firstn (length vs) names.
Proof.
  revert vs; induction names as [|n names IH]; intros [|v vs]; simpl;
    try reflexivity.
  now rewrite IH.
Qed.

(** C10. From a result set with named columns every row object is built
    by entering the pairs of [zip(columns, row)] in order: a name is bound
    to the value of its last occurrence among the zipped pairs, values
    beyond the columns and columns beyond the values are left out, and a
    name that occurs twice among the zipped pairs leaves the row object
    with fewer keys than there are columns. *)
Theorem row_object_zips_columns (tabulate : list row -> result string)
  (names : list string) (rows : list (list value)) :
  tabulate_results tabulate (result_set names rows) =
    match map (row_object names) rows with
    | [] => Ok ([], None)
    | table => s <- tabulate table ;; Ok (table, Some s)
    end
  /\ forall vs,
       make_row (map VStr names) (VList vs) = Ok (row_object names vs)
       /\ (forall name,
             row_get (VStr name) (row_object names vs) =
             last_value name (combine names vs))
       /\ length (row_object names vs) <= Nat.min (length names) (length vs)
       /\ (~ NoDup (firstn (length vs) names) ->
           length (row_object names vs) < length names).
Proof.
  split.
  - unfold tabulate_results, result_set; simpl.
    rewrite column_names; simpl.
    rewrite rows_of_result_set; simpl.
    destruct (map (row_object names) rows); reflexivity.
  - intros vs.
    destruct (fold_row_keys (combine names vs) [] (NoDup_nil _)) as [Hnd Hincl].
    fold (row_object names vs) in Hnd, Hincl.
    simpl in Hincl; rewrite app_nil_r, zipped_names in Hincl.
    assert (Hlen : length (firstn (length vs) names)
                   = Nat.min (length names) (length vs)).
    { rewrite length_firstn; apply Nat.min_comm. }
    split; [apply make_row_strings|].
    split; [intros name; unfold row_object; now rewrite fold_row_get|].
    split.
    + rewrite <- (length_map fst (row_object names vs)), <- Hlen,
        <- (length_map VStr (firstn _ _)).
      now apply NoDup_incl_length.
    + intros Hdup.
      destruct (Nat.lt_ge_cases (length (row_object names vs)) (length names))
        as [Hlt | Hge]; [assumption|].
      exfalso; apply Hdup.
      apply (NoDup_map_inv VStr).
      apply (NoDup_incl_NoDup Hnd); [|exact Hincl].
      rewrite !length_map, Hlen.
      etransitivity; [apply Nat.le_min_l | exact Hge].
Qed.

(** ** Worked instances

    The sample stream carries three text frames, a frame that sets
    [SELECT 1] and cites two search results, and a frame that sets
    [SELECT 'a;b';] and then offers the number 7 as a statement. *)

Lemma sql_last_writer_wins_witness :
  exists t c,
    process_sse_response sample_loads sample_stream = Ok (t, "SELECT 'a;b';", c).
Proof.
  destruct (sql_last_writer_wins sample_loads sample_stream) as (_ & H & _).
  apply H; split; vm_compute; reflexivity.
Defined.

Lemma citations_in_stream_order_witness :
  exists t s,
    process_sse_response sample_loads sample_stream =
    Ok (t, s, [mk_citation (VStr "a") (VStr "d1");
               mk_citation (VStr "b") VNone;
               mk_citation (VStr "a") (VStr "d1")]).
Proof.
  destruct (citations_in_stream_order sample_loads sample_stream) as (_ & H);
    [vm_compute; reflexivity|].
  apply H; split; vm_compute; reflexivity.
Defined.

Lemma inert_line_is_skipped_witness :
  fold_line sample_loads initial "data: not json" = Ok initial.
Proof.
  apply (inert_line_is_skipped sample_loads "data: not json").
  do 4 right; left; vm_compute; reflexivity.
Defined.

Lemma empty_statement_is_not_executed_witness :
  exists r w',
    run_cortex_agents sample_loads sample_uuid4 None None
      failing_endpoint quiet_agent sample_tabulate sample_str
      "how many?" new_world = (Ok r, w')
    /\ out_text r = "No text response generated."
    /\ out_sql r = "NO_SQL_GENERATED"
    /\ out_results r = None
    /\ out_results_table r = None
    /\ sent w' = [AgentRun (sample_uuid4 0) (agent_payload None None "how many?")].
Proof.
  destruct (empty_statement_is_not_executed sample_loads sample_uuid4 None None
              failing_endpoint quiet_agent sample_tabulate sample_str
              "how many?" new_world (mk_body ["data: [DONE]"] None) "" "" [])
    as (r & w' & Hrun & _ & Ht & Hs); [reflexivity | reflexivity |].
  destruct (Hs eq_refl) as (Hsql & Hres & Htbl & Hsent).
  exists r, w'; repeat split; auto.
Defined.

Lemma execution_exception_is_embedded_witness :
  exists r w',
    run_cortex_agents sample_loads sample_uuid4 None None
      failing_endpoint sample_agent sample_tabulate sample_str
      "how many?" new_world = (Ok r, w')
    /\ out_results r =
       Some [[(VStr "error", VStr "SQL execution failed: ReadTimeout")]]
    /\ out_results_table r = Some "SQL execution failed: ReadTimeout".
Proof.
  apply (execution_exception_is_embedded sample_loads sample_uuid4 None None
           failing_endpoint sample_agent sample_tabulate sample_str
           "how many?" new_world sample_stream "Hello world" "SELECT 'a;b';"
           [mk_citation (VStr "a") (VStr "d1"); mk_citation (VStr "b") VNone;
            mk_citation (VStr "a") (VStr "d1")]
           (LibraryError "ReadTimeout"));
    [reflexivity | vm_compute; reflexivity | discriminate | left; reflexivity].
Defined.

(** The claim C8 read on the code: the execute endpoint answers 422, and
    [results] is the empty list, not null. *)
Lemma reported_error_results_not_null :
  exists r w',
    run_cortex_agents sample_loads sample_uuid4 None None
      refusing_endpoint sample_agent sample_tabulate sample_str
      "how many?" new_world = (Ok r, w')
    /\ out_results r = Some []
    /\ out_results r <> None.
Proof.
  eexists; eexists; split; [vm_compute; reflexivity|].
  split; [reflexivity | discriminate].
Qed.

Lemma reported_error_gives_empty_results_witness :
  fst (execute_sql sample_uuid4 refusing_endpoint "SELECT 'a;b';"
         (asked sample_uuid4 None None "how many?" new_world)) =
    Ok (VDict [("error", VStr "SQL API error: SQL compilation error")])
  /\ exists r w',
       run_cortex_agents sample_loads sample_uuid4 None None
         refusing_endpoint sample_agent sample_tabulate sample_str
         "how many?" new_world = (Ok r, w')
       /\ out_results r = Some []
       /\ out_results_table r = None.
Proof.
  apply (reported_error_gives_empty_results sample_loads sample_uuid4 None None
           refusing_endpoint sample_agent sample_tabulate sample_str
           "how many?" new_world sample_stream "Hello world" "SELECT 'a;b';"
           [mk_citation (VStr "a") (VStr "d1"); mk_citation (VStr "b") VNone;
            mk_citation (VStr "a") (VStr "d1")]
           (mk_response 422 "SQL compilation error" (Raise JSONDecodeError)));
    [reflexivity | vm_compute; reflexivity | discriminate | reflexivity
    | simpl; lia].
Defined.

Lemma reported_sql_is_verbatim_witness :
  exists r w',
    run_cortex_agents sample_loads sample_uuid4 None None
      answering_endpoint sample_agent sample_tabulate sample_str
      "how many?" new_world = (Ok r, w')
    /\ out_sql r = "SELECT 'a;b';"
    /\ sent w' =
       [AgentRun (sample_uuid4 0) (agent_payload None None "how many?");
        Statements (sample_uuid4 1)
          (VDict [("statement", VStr "SELECT 'ab'"); ("timeout", VInt 60)])].
Proof.
  apply (reported_sql_is_verbatim sample_loads sample_uuid4 None None
           answering_endpoint sample_agent sample_tabulate sample_str
           "how many?" new_world sample_stream "Hello world" "SELECT 'a;b';"
           [mk_citation (VStr "a") (VStr "d1"); mk_citation (VStr "b") VNone;
            mk_citation (VStr "a") (VStr "d1")]);
    [reflexivity | vm_compute; reflexivity | discriminate].
Defined.

Lemma row_object_zips_columns_witness :
  length (row_object ["A"; "A"] [VStr "1"; VStr "2"; VStr "3"]) < 2.
Proof.
  destruct (row_object_zips_columns sample_tabulate ["A"; "A"] []) as [_ H].
  destruct (H [VStr "1"; VStr "2"; VStr "3"]) as (_ & _ & _ & Hlt).
  apply Hlt; simpl; intros Hnd.
  inversion Hnd as [|x l Hnotin _]; apply Hnotin; left; reflexivity.
Defined.

(** * Further properties *)

(** ** The text, and what a fold depends on *)

Lemma append_empty (s : string) : (s ++ "")%string = s.
Proof. induction s as [|c s IH]; simpl; [reflexivity | now rewrite IH]. Qed.

Lemma append_associative (a b c : string) :
  ((a ++ b) ++ c)%string = (a ++ (b ++ c))%string.
Proof. induction a as [|x a IH]; simpl; [reflexivity | now rewrite IH]. Qed.

Lemma join_app (l1 l2 : list string) :
  join (l1 ++ l2) = (join l1 ++ join l2)%string.
Proof.
  induction l1 as [|x l1 IH]; simpl; [reflexivity|].
  now rewrite IH, append_associative.
Qed.

Lemma map_flat_map_entries {A B C : Type} (f : B -> C) (g : A -> list B)
  (l : list A) :
  map f (flat_map g l) = flat_map (fun x => map f (g x)) l.
Proof.
  induction l as [|x l IH]; simpl; [reflexivity|].
  now rewrite map_app, IH.
Qed.

(** A loop adds to the text what its rounds add, in order. *)
Lemma for_each_text {A : Type} (body : aggregate -> A -> result aggregate)
  (fragments : A -> list string) :
  (forall st x st', body st x = Ok st' ->
     text st' = (text st ++ join (fragments x))%string) ->
  forall xs st st', for_each body xs st = Ok st' ->
    text st' = (text st ++ join (flat_map fragments xs))%string.
Proof.
  intros Hbody; induction xs as [|x xs IH]; intros st st' H; simpl in *.
  - injection H as <-; now rewrite append_empty.
  - destruct (body st x) as [st1|e] eqn:Hx; simpl in H; [|discriminate].
    rewrite (IH _ _ H), (Hbody _ _ _ Hx), join_app.
    apply append_associative.
Qed.

Lemma add_text_text (st st' : aggregate) (d : dict) :
  add_text st d = Ok st' -> text st' = (text st ++ dict_text d)%string.
Proof.
  unfold add_text, get_default, dict_text.
  destruct (dict_get "text" d) as [[]|]; try discriminate;
    intros H; injection H as <-; reflexivity.
Qed.

Lemma capture_text (st : aggregate) (j : dict) :
  text (capture_citations (capture_sql st j) j) = text st.
Proof.
  unfold capture_citations, capture_sql.
  destruct (get "sql" j), (get_default "searchResults" (VList []) j);
    reflexivity.
Qed.

Lemma fold_result_text (st : aggregate) (r : value) (st' : aggregate) :
  fold_result st r = Ok st' ->
  text st' = (text st ++ join (map dict_text (result_entries r)))%string.
Proof.
  destruct r as [| | | | |l|rd]; simpl;
    try (intros H; injection H as <-; now rewrite append_empty).
  unfold entry_json, get_default.
  destruct (eq_str (get "type" rd) "json");
    [|intros H; injection H as <-; now rewrite append_empty].
  destruct (dict_get "json" rd) as [[| | | | | |j]|]; simpl;
    try (intros H; injection H as <-; now rewrite append_empty).
  destruct (add_text st j) as [st1|e] eqn:Ht; simpl; [|discriminate].
  intros H; injection H as <-.
  now rewrite capture_text, (add_text_text _ _ _ Ht), append_empty.
Qed.

Lemma fold_item_text (st : aggregate) (item : value) (st' : aggregate) :
  fold_item st item = Ok st' ->
  text st' =
  (text st ++ join (match item with
                    | VDict it => item_fragments it
                    | _ => []
                    end))%string.
Proof.
  destruct item as [| | | | |l|it]; simpl;
    try (intros H; injection H as <-; now rewrite append_empty).
  unfold item_fragments, item_entries, get_default.
  destruct (eq_str (get "type" it) "text") eqn:Htext.
  - intros H; simpl; rewrite append_empty; now apply add_text_text.
  - destruct (eq_str (get "type" it) "tool_results");
      [|intros H; injection H as <-; now rewrite append_empty].
    destruct (dict_get "tool_results" it) as [[| | | | | |tool_results]|];
      try (intros H; injection H as <-; now rewrite append_empty).
    destruct (iter _) as [results|e] eqn:Hiter; simpl; [|discriminate].
    intros H; rewrite <- (iter_content _ _ Hiter), map_flat_map_entries.
    revert H; apply for_each_text; exact fold_result_text.
Qed.

Lemma objects_fragments (l : list value) :
  flat_map (fun item => match item with
                        | VDict it => item_fragments it
                        | _ => []
                        end) l
  = flat_map item_fragments (objects l).
Proof.
  unfold objects; induction l as [|r l IH]; simpl; [reflexivity|].
  rewrite flat_map_app, IH; destruct r; simpl; rewrite ?app_nil_r; reflexivity.
Qed.

Lemma fold_delta_text (st : aggregate) (delta : dict) (st' : aggregate) :
  fold_delta st delta = Ok st' ->
  text st' = (text st ++ join (delta_fragments delta))%string.
Proof.
  unfold fold_delta, delta_fragments, get_default, sequence.
  destruct (dict_get "content" delta) as [[| | | | |content_items|]|];
    try (intros H; injection H as <-; now rewrite append_empty).
  rewrite <- objects_fragments.
  apply for_each_text; exact fold_item_text.
Qed.

(** Whether a loop returns does not depend on the state it starts from,
    when that holds of its body. *)
Lemma for_each_outcome {A S : Type} (body : S -> A -> result S) :
  (forall st st0 x, outcome (body st x) = outcome (body st0 x)) ->
  forall xs st st0,
    outcome (for_each body xs st) = outcome (for_each body xs st0).
Proof.
  intros Hbody; induction xs as [|x xs IH]; intros st st0; simpl;
    [reflexivity|].
  specialize (Hbody st st0 x).
  destruct (body st x) as [st1|e], (body st0 x) as [st1'|e']; simpl in *;
    try discriminate; [apply IH | exact Hbody].
Qed.

Lemma add_text_outcome (st st0 : aggregate) (d : dict) :
  outcome (add_text st d) = outcome (add_text st0 d).
Proof.
  unfold add_text; destruct (get_default "text" (VStr "") d); reflexivity.
Qed.

Lemma fold_result_outcome (st st0 : aggregate) (r : value) :
  outcome (fold_result st r) = outcome (fold_result st0 r).
Proof.
  destruct r as [| | | | | |rd]; simpl; try reflexivity.
  destruct (eq_str (get "type" rd) "json"); [|reflexivity].
  destruct (get_default "json" (VDict []) rd) as [| | | | | |j];
    try reflexivity.
  pose proof (add_text_outcome st st0 j) as H.
  destruct (add_text st j), (add_text st0 j); simpl in *;
    try discriminate; [reflexivity | exact H].
Qed.

Lemma fold_item_outcome (st st0 : aggregate) (item : value) :
  outcome (fold_item st item) = outcome (fold_item st0 item).
Proof.
  destruct item as [| | | | | |it]; simpl; try reflexivity.
  destruct (eq_str (get "type" it) "text"); [apply add_text_outcome|].
  destruct (eq_str (get "type" it) "tool_results"); [|reflexivity].
  destruct (get_default "tool_results" (VDict []) it)
    as [| | | | | |tool_results]; try reflexivity.
  destruct (iter _) as [results|e]; simpl; [|reflexivity].
  apply for_each_outcome; exact fold_result_outcome.
Qed.

Lemma fold_delta_outcome (st st0 : aggregate) (delta : dict) :
  outcome (fold_delta st delta) = outcome (fold_delta st0 delta).
Proof.
  unfold fold_delta.
  destruct (get_default "content" (VList []) delta); try reflexivity.
  apply for_each_outcome; exact fold_item_outcome.
Qed.

(** The only exception a fold of a delta raises is [TypeError]. *)
Lemma for_each_raises {A S : Type} (body : S -> A -> result S) (e : exn) :
  forall xs st, for_each body xs st = Raise e ->
    exists x st1, In x xs /\ body st1 x = Raise e.
Proof.
  induction xs as [|x xs IH]; intros st H; simpl in H; [discriminate|].
  destruct (body st x) as [st1|e'] eqn:Hx; simpl in H.
  - destruct (IH _ H) as (y & st2 & Hin & Hy).
    exists y, st2; split; [now right | assumption].
  - injection H as ->; exists x, st; split; [now left | assumption].
Qed.

Lemma add_text_raises (st : aggregate) (d : dict) (e : exn) :
  add_text st d = Raise e -> e = TypeError.
Proof.
  unfold add_text; destruct (get_default "text" (VStr "") d);
    intros H; try discriminate; now injection H.
Qed.

Lemma fold_result_raises (st : aggregate) (r : value) (e : exn) :
  fold_result st r = Raise e -> e = TypeError.
Proof.
  destruct r as [| | | | | |rd]; simpl; try discriminate.
  destruct (eq_str (get "type" rd) "json"); [|discriminate].
  destruct (get_default "json" (VDict []) rd) as [| | | | | |j];
    try discriminate.
  destruct (add_text st j) as [st1|e'] eqn:Ht; simpl; [discriminate|].
  intros H; injection H as <-; exact (add_text_raises _ _ _ Ht).
Qed.

Lemma iter_raises (v : value) (e : exn) : iter v = Raise e -> e = TypeError.
Proof. destruct v; simpl; intros H; try discriminate; now injection H. Qed.

Lemma fold_item_raises (st : aggregate) (item : value) (e : exn) :
  fold_item st item = Raise e -> e = TypeError.
Proof.
  destruct item as [| | | | | |it]; simpl; try discriminate.
  destruct (eq_str (get "type" it) "text"); [apply add_text_raises|].
  destruct (eq_str (get "type" it) "tool_results"); [|discriminate].
  destruct (get_default "tool_results" (VDict []) it)
    as [| | | | | |tool_results]; try discriminate.
  destruct (iter _) as [results|e'] eqn:Hiter; simpl.
  - intros H; apply for_each_raises in H as (x & st1 & _ & Hx).
    exact (fold_result_raises _ _ _ Hx).
  - intros H; injection H as <-; exact (iter_raises _ _ Hiter).
Qed.

Lemma delta_fold_type_error (st : aggregate) (delta : dict) (e : exn) :
  fold_delta st delta = Raise e -> e = TypeError.
Proof.
  unfold fold_delta.
  destruct (get_default "content" (VList []) delta); try discriminate.
  intros H; apply for_each_raises in H as (x & st1 & _ & Hx).
  exact (fold_item_raises _ _ _ Hx).
Qed.

Section Folding.

Variable json_loads : string -> result value.

Lemma fold_line_text (st : aggregate) (raw_line : string) (st' : aggregate) :
  fold_line json_loads st raw_line = Ok st' ->
  text st' = (text st ++ join (line_fragments json_loads raw_line))%string.
Proof.
  unfold fold_line, line_fragments, frame_delta.
  destruct (payload_of raw_line) as [payload|];
    [|intros H; injection H as <-; now rewrite append_empty].
  destruct (json_loads payload) as [evt|e].
  - destruct (extract_delta evt) as [delta|];
      [apply fold_delta_text
      | intros H; injection H as <-; now rewrite append_empty].
  - destruct e; try discriminate.
    intros H; injection H as <-; now rewrite append_empty.
Qed.

Lemma fold_line_outcome (st st0 : aggregate) (raw_line : string) :
  outcome (fold_line json_loads st raw_line) =
  outcome (fold_line json_loads st0 raw_line).
Proof.
  unfold fold_line.
  destruct (payload_of raw_line) as [payload|]; [|reflexivity].
  destruct (json_loads payload) as [evt|e]; [|destruct e; reflexivity].
  destruct (extract_delta evt) as [delta|]; [|reflexivity].
  apply fold_delta_outcome.
Qed.

(** A fold from any state is the fold from the initial state, carried on. *)
Lemma fold_lines_carry (lines : list string) (gathered : aggregate) :
  for_each (fold_line json_loads) lines initial = Ok gathered ->
  forall st,
    for_each (fold_line json_loads) lines st =
    Ok (carry_on st gathered (sql_writes json_loads lines)).
Proof.
  intros Hb st.
  pose proof (for_each_outcome (fold_line json_loads) fold_line_outcome
                lines st initial) as Hout.
  rewrite Hb in Hout.
  destruct (for_each (fold_line json_loads) lines st) as [st'|e] eqn:Ha;
    [clear Hout | discriminate].
  pose proof (for_each_text _ _ fold_line_text _ _ _ Ha) as Ht.
  pose proof (for_each_text _ _ fold_line_text _ _ _ Hb) as Htb.
  apply fold_lines_extends in Ha as [Hs Hc].
  apply fold_lines_extends in Hb as [_ Hcb].
  simpl in Htb, Hcb.
  unfold carry_on; rewrite Htb, Hcb, <- Ht, <- Hc.
  fold (stream_entries json_loads lines) in Hs.
  unfold sql_writes; rewrite <- Hs.
  destruct st'; reflexivity.
Qed.

Lemma fold_lines_raise (lines : list string) (e : exn) :
  for_each (fold_line json_loads) lines initial = Raise e ->
  forall st, for_each (fold_line json_loads) lines st = Raise e.
Proof.
  intros Hb st.
  pose proof (for_each_outcome (fold_line json_loads) fold_line_outcome
                lines st initial) as Hout.
  rewrite Hb in Hout.
  destruct (for_each (fold_line json_loads) lines st); simpl in Hout;
    [discriminate | congruence].
Qed.

(** X1. The text [process_sse_response] returns is the concatenation, in
    stream order, of the [text] of every text item and of every
    tool-result object, an absent [text] counting as empty; on a stream
    whose frames follow the data model the function returns it. *)
Theorem text_in_stream_order (resp : sse_body) :
  (forall t s c,
     process_sse_response json_loads resp = Ok (t, s, c) ->
     t = join (stream_fragments json_loads (aiter_lines resp)))
  /\ (well_typed json_loads resp ->
      exists s c,
        process_sse_response json_loads resp =
        Ok (join (stream_fragments json_loads (aiter_lines resp)), s, c)).
Proof.
  split.
  - intros t s c H.
    apply process_inv in H as (st & Hst & -> & _ & _).
    exact (for_each_text _ _ fold_line_text _ _ _ Hst).
  - intros Hwt.
    destruct (process_returns json_loads resp Hwt) as (st & Hst & Hp).
    exists (sql st), (citations st); rewrite Hp.
    now rewrite (for_each_text _ _ fold_line_text _ _ _ Hst).
Qed.

(** X2. Whatever the stream, when [process_sse_response] returns, its
    citations are the records of the members of the [searchResults]
    sequences that are objects, in stream order; a member that is not an
    object is passed over, so there are never more citations than
    members. *)
Theorem citations_skip_non_objects (resp : sse_body) (t s : string)
  (c : list citation) :
  process_sse_response json_loads resp = Ok (t, s, c) ->
  c = map citation_record
        (filter is_object (search_results json_loads (aiter_lines resp)))
  /\ length c <= length (search_results json_loads (aiter_lines resp)).
Proof.
  intros H.
  apply process_inv in H as (st & Hst & _ & _ & ->).
  apply fold_lines_extends in Hst as [_ Hc]; simpl in Hc.
  fold (search_results json_loads (aiter_lines resp)) in Hc.
  split; [exact Hc|].
  rewrite Hc, length_map; apply filter_length_le.
Qed.

(** X3. Streams compose. When the lines [lines1] are processed to
    [(t1, s1, c1)], the lines [lines1 ++ lines2] are processed to the
    texts and the citations of the two parts joined, with the last
    statement set in [lines2] or else [s1], whenever [lines2] alone is
    processed to a result; and they raise what [lines2] alone raises. *)
Theorem streams_compose (lines1 lines2 : list string) (t1 s1 : string)
  (c1 : list citation) :
  process_sse_response json_loads (mk_body lines1 None) = Ok (t1, s1, c1) ->
  (forall t2 s2 c2,
     process_sse_response json_loads (mk_body lines2 None) = Ok (t2, s2, c2) ->
     process_sse_response json_loads (mk_body (lines1 ++ lines2) None) =
     Ok ((t1 ++ t2)%string, last (sql_writes json_loads lines2) s1, c1 ++ c2))
  /\ (forall e,
        process_sse_response json_loads (mk_body lines2 None) = Raise e ->
        process_sse_response json_loads (mk_body (lines1 ++ lines2) None) =
        Raise e).
Proof.
  intros H1.
  apply process_inv in H1 as (a & Ha & -> & -> & ->); simpl in Ha.
  split.
  - intros t2 s2 c2 H2.
    apply process_inv in H2 as (b & Hb & -> & -> & ->); simpl in Hb.
    unfold process_sse_response; simpl.
    rewrite for_each_app, Ha; simpl.
    rewrite (fold_lines_carry _ _ Hb a); reflexivity.
  - intros e H2.
    unfold process_sse_response in *; simpl in *.
    rewrite for_each_app, Ha; simpl.
    destruct (for_each (fold_line json_loads) lines2 initial) as [b|e'] eqn:Hb;
      simpl in H2; [discriminate|].
    injection H2 as ->.
    now rewrite (fold_lines_raise _ _ Hb a).
Qed.

(** X4. An exception leaves [process_sse_response] in three cases only:
    it is a [TypeError] and the delta of one of the lines, located in the
    document [json.loads] returned for its payload, raises it when
    folded; or it is the fault that ended the reading of the body; or
    [json.loads] raised it on the payload of a line and it is not a
    [JSONDecodeError]. *)
Theorem process_raises_only (resp : sse_body) (e : exn) :
  process_sse_response json_loads resp = Raise e ->
  (e = TypeError
   /\ exists raw_line payload evt delta st,
        In raw_line (aiter_lines resp)
        /\ payload_of raw_line = Some payload
        /\ json_loads payload = Ok evt
        /\ extract_delta evt = Some delta
        /\ fold_delta st delta = Raise TypeError)
  \/ read_fault resp = Some e
  \/ (e <> JSONDecodeError
      /\ exists raw_line payload,
           In raw_line (aiter_lines resp)
           /\ payload_of raw_line = Some payload
           /\ json_loads payload = Raise e).
Proof.
  unfold process_sse_response.
  destruct (for_each (fold_line json_loads) (aiter_lines resp) initial)
    as [st|e'] eqn:Hfold; simpl.
  - destruct (read_fault resp) as [f|]; [|discriminate].
    intros H; injection H as ->; right; now left.
  - intros H; injection H as ->.
    apply for_each_raises in Hfold as (raw_line & st1 & Hin & Hline).
    unfold fold_line in Hline.
    destruct (payload_of raw_line) as [payload|] eqn:Hp; [|discriminate].
    destruct (json_loads payload) as [evt|e'] eqn:Hj.
    + destruct (extract_delta evt) as [delta|] eqn:Hd; [|discriminate].
      left.
      pose proof (delta_fold_type_error _ _ _ Hline) as ->.
      split; [reflexivity|].
      exists raw_line, payload, evt, delta, st1; auto.
    + right; right.
      assert (He : e' = e /\ e <> JSONDecodeError)
        by (destruct e'; try discriminate; injection Hline as <-;
            (split; [reflexivity | discriminate])).
      destruct He as [-> Hne]; split; [assumption|].
      exists raw_line, payload; auto.
Qed.

End Folding.

(** ** The decoder *)

(** X5. The delta of an event is the object at its [delta] key; when
    there is no object there, whether the key is absent or holds
    something else, it is the object at [data.delta]; otherwise the event
    has none. An event that is not an object has none. *)
Theorem extract_delta_locates (evt : value) :
  extract_delta evt =
  match lookup_path ["delta"] evt with
  | Some (VDict delta) => Some delta
  | _ =>
      match lookup_path ["data"; "delta"] evt with
      | Some (VDict delta) => Some delta
      | _ => None
      end
  end.
Proof.
  destruct evt as [| | | | | |e]; simpl; try reflexivity.
  unfold get.
  destruct (dict_get "delta" e) as [[]|]; try reflexivity;
    destruct (dict_get "data" e) as [[| | | | | |data]|]; simpl;
    try reflexivity;
    destruct (dict_get "delta" data) as [[]|]; reflexivity.
Qed.

Lemma rstrip_idempotent (s : string) : rstrip (rstrip s) = rstrip s.
Proof.
  induction s as [|c s IH]; [reflexivity|].
  cbn [rstrip]; destruct (rstrip s) as [|c' r] eqn:Hr.
  - destruct (is_space c) eqn:Hc; simpl; [reflexivity | now rewrite Hc].
  - cbn [rstrip] in *; now rewrite IH.
Qed.

Lemma lstrip_head (s : string) :
  lstrip s = "" \/ exists c r, lstrip s = String c r /\ is_space c = false.
Proof.
  induction s as [|c s IH]; simpl; [now left|].
  destruct (is_space c) eqn:Hc; [exact IH | right; eauto].
Qed.

Lemma lstrip_rstrip (c : ascii) (r : string) :
  is_space c = false -> lstrip (rstrip (String c r)) = rstrip (String c r).
Proof.
  intros Hc; cbn [rstrip].
  destruct (rstrip r); rewrite ?Hc; cbn [lstrip]; now rewrite Hc.
Qed.

Lemma strip_idempotent (s : string) : strip (strip s) = strip s.
Proof.
  unfold strip.
  destruct (lstrip_head s) as [-> | (c & r & -> & Hc)]; [reflexivity|].
  now rewrite (lstrip_rstrip c r Hc), rstrip_idempotent.
Qed.

Lemma payload_of_strip (raw_line : string) :
  payload_of (strip raw_line) = payload_of raw_line.
Proof.
  unfold payload_of; rewrite strip_idempotent.
  destruct (String.eqb raw_line "") eqn:E.
  - apply String.eqb_eq in E; subst; reflexivity.
  - destruct (String.eqb (strip raw_line) "") eqn:E'; [|reflexivity].
    apply String.eqb_eq in E'; rewrite E'; reflexivity.
Qed.

(** X6. White space around a line does not matter: the line with it
    stripped is folded the same way. A payload taken from a line is never
    empty, never the sentinel [[DONE]], and has no white space around it;
    the line it comes from begins, once stripped, with [data:]. *)
Theorem line_whitespace_is_ignored (json_loads : string -> result value)
  (raw_line : string) :
  (forall st,
     fold_line json_loads st (strip raw_line) =
     fold_line json_loads st raw_line)
  /\ (forall payload,
        payload_of raw_line = Some payload ->
        payload <> "" /\ payload <> "[DONE]" /\ strip payload = payload
        /\ startswith (strip raw_line) "data:" = true).
Proof.
  split.
  - intros st; unfold fold_line; now rewrite payload_of_strip.
  - unfold payload_of; intros payload.
    destruct (String.eqb raw_line ""); [discriminate|].
    destruct (startswith (strip raw_line) "data:"); simpl; [|discriminate].
    destruct (String.eqb _ "") eqn:E1; simpl; [discriminate|].
    destruct (String.eqb _ "[DONE]") eqn:E2; simpl; [discriminate|].
    intros H; injection H as <-.
    apply String.eqb_neq in E1, E2.
    repeat split; try assumption.
    apply strip_idempotent.
Qed.

(** ** The tool call as a whole *)

Lemma delete_all_occurs (c x : ascii) (s : string) :
  occurs x (delete_all c s) <-> x <> c /\ occurs x s.
Proof.
  unfold occurs; induction s as [|c' s IH]; simpl; [tauto|].
  destruct (Ascii.eqb c' c) eqn:E.
  - apply Ascii.eqb_eq in E; subst c'; rewrite IH.
    split; [tauto|]; intros [Hx [-> | H]]; [congruence | tauto].
  - apply Ascii.eqb_neq in E; simpl; rewrite IH.
    split; [intros [<- | H]; tauto | tauto].
Qed.

Lemma delete_all_absent (c : ascii) (s : string) :
  ~ occurs c s -> delete_all c s = s.
Proof.
  unfold occurs; induction s as [|c' s IH]; simpl; [reflexivity|].
  intros H; destruct (Ascii.eqb c' c) eqn:E.
  - apply Ascii.eqb_eq in E; subst c'; tauto.
  - rewrite IH; tauto.
Qed.

Lemma delete_all_length (c : ascii) (s : string) :
  String.length (delete_all c s) <= String.length s.
Proof.
  induction s as [|c' s IH]; simpl; [lia|].
  destruct (Ascii.eqb c' c); simpl; lia.
Qed.

Lemma delete_all_only (c : ascii) (s : string) :
  (forall x, occurs x s -> x = c) -> delete_all c s = "".
Proof.
  unfold occurs; induction s as [|c' s IH]; simpl; [reflexivity|].
  intros H; rewrite (H c') by now left.
  rewrite Ascii.eqb_refl; apply IH; intros x Hx; apply H; now right.
Qed.

Lemma tabulate_results_shape (tabulate : list row -> result string)
  (results : value) (table : list row) (table_str : option string) :
  tabulate_results tabulate results = Ok (table, table_str) ->
  (table = [] /\ table_str = None)
  \/ (exists r rs s, table = r :: rs /\ table_str = Some s).
Proof.
  unfold tabulate_results.
  do 7 match goal with
       | |- context [bind ?m _] =>
           destruct m; cbn [bind]; try discriminate
       end.
  match goal with
  | |- context [match ?l with [] => _ | _ => _ end] =>
      destruct l as [|r rs]; simpl
  end.
  - intros H; injection H as <- <-; now left.
  - destruct (tabulate (r :: rs)) as [str|e]; simpl; [|discriminate].
    intros H; injection H as <- <-; right; eauto.
Qed.

Lemma descriptor_names (cols : list value) (names : list string) :
  Forall2 names_column cols names ->
  map_m subscript_name cols = Ok (map VStr names).
Proof.
  induction 1 as [|col name cols names (d & -> & Hd) _ IH]; [reflexivity|].
  simpl; rewrite Hd; simpl; rewrite IH; reflexivity.
Qed.

Lemma tabulate_envelope (tabulate : list row -> result string)
  (results meta : dict) (cols : list value) (names : list string)
  (rows : list (list value)) :
  dict_get "data" results = Some (VList (map VList rows)) ->
  dict_get "resultSetMetaData" results = Some (VDict meta) ->
  dict_get "rowType" meta = Some (VList cols) ->
  Forall2 names_column cols names ->
  tabulate_results tabulate (VDict results) =
  match map (row_object names) rows with
  | [] => Ok ([], None)
  | table => s <- tabulate table ;; Ok (table, Some s)
  end.
Proof.
  intros Hdata Hmeta Htype Hcols.
  unfold tabulate_results, attr_get, get_default.
  rewrite Hdata, Hmeta; cbn [bind]; rewrite Htype; cbn [bind iter].
  rewrite (descriptor_names _ _ Hcols); cbn [bind].
  rewrite rows_of_result_set; cbn [bind].
  destruct (map (row_object names) rows); reflexivity.
Qed.

Lemma fold_line_passed_over (json_loads : string -> result value)
  (raw_line : string) (st : aggregate) :
  passed_over json_loads raw_line ->
  fold_line json_loads st raw_line = Ok st.
Proof.
  unfold passed_over, fold_line.
  destruct (payload_of raw_line) as [payload|]; [|reflexivity].
  intros [-> | (evt & -> & ->)]; reflexivity.
Qed.

Lemma assemble_citations (uuid4 : nat -> string)
  (statements_endpoint : string -> value -> result http_response)
  (tabulate : list row -> result string) (str_exn : exn -> string)
  (t s : string) (c : list citation) (w : world) :
  out_citations
    (fst (assemble uuid4 statements_endpoint tabulate str_exn t s c w)) = c.
Proof.
  unfold assemble; destruct (String.eqb s "");
    [|destruct (try_execute _ _ _ _ _) as [[[a b]|e] w1]]; reflexivity.
Qed.

Section Calls.

Variable json_loads : string -> result value.
Variable uuid4 : nat -> string.
Variable SEMANTIC_MODEL_FILE : option string.
Variable CORTEX_SEARCH_SERVICE : option string.
Variable statements_endpoint : string -> value -> result http_response.
Variable agent_endpoint : string -> value -> result sse_body.
Variable tabulate : list row -> result string.
Variable str_exn : exn -> string.

Local Abbreviation the_payload :=
  (agent_payload SEMANTIC_MODEL_FILE CORTEX_SEARCH_SERVICE).
Local Abbreviation call :=
  (run_cortex_agents json_loads uuid4 SEMANTIC_MODEL_FILE CORTEX_SEARCH_SERVICE
     statements_endpoint agent_endpoint tabulate str_exn).
Local Abbreviation once_asked :=
  (asked uuid4 SEMANTIC_MODEL_FILE CORTEX_SEARCH_SERVICE).
Local Abbreviation put_together :=
  (assemble uuid4 statements_endpoint tabulate str_exn).

Lemma call_cases (query : string) (w : world) :
  (exists e,
     agent_endpoint (uuid4 (drawn w)) (the_payload query) = Raise e
     /\ call query w = (Raise e, once_asked query w))
  \/ (exists resp e,
        agent_endpoint (uuid4 (drawn w)) (the_payload query) = Ok resp
        /\ process_sse_response json_loads resp = Raise e
        /\ call query w = (Raise e, once_asked query w))
  \/ (exists resp t s c,
        agent_endpoint (uuid4 (drawn w)) (the_payload query) = Ok resp
        /\ process_sse_response json_loads resp = Ok (t, s, c)
        /\ call query w =
           (Ok (fst (put_together t s c (once_asked query w))),
            snd (put_together t s c (once_asked query w)))).
Proof.
  destruct (agent_endpoint (uuid4 (drawn w)) (the_payload query))
    as [resp|e] eqn:Ha.
  - destruct (process_sse_response json_loads resp) as [[[t s] c]|e] eqn:Hp.
    + right; right; exists resp, t, s, c; repeat split; try assumption.
      exact (run_after_stream _ _ _ _ _ _ _ _ _ _ _ _ _ _ Ha Hp).
    + right; left; exists resp, e; repeat split; try assumption.
      unfold run_cortex_agents, fresh_uuid, post; simpl.
      now rewrite Ha, Hp.
  - left; exists e; split; [reflexivity|].
    unfold run_cortex_agents, fresh_uuid, post; simpl.
    now rewrite Ha.
Qed.

Lemma assemble_nothing (t : string) (c : list citation) (w : world) :
  put_together t "" c w =
  (mk_response_object
     (if String.eqb t "" then "No text response generated." else t)
     "NO_SQL_GENERATED" None None c, w).
Proof. reflexivity. Qed.

Lemma assemble_results (t s : string) (c : list citation) (w : world) :
  let r := fst (put_together t s c w) in
  (out_results r = None ->
   out_results_table r = None /\ out_sql r = "NO_SQL_GENERATED")
  /\ (forall table_str, out_results_table r = Some table_str ->
      exists row rows, out_results r = Some (row :: rows)).
Proof.
  unfold assemble, try_execute.
  destruct (String.eqb s ""); simpl; [split; [auto | discriminate]|].
  destruct (execute_sql uuid4 statements_endpoint s w) as [results w1]; simpl.
  destruct (r0 <- results ;; tabulate_results tabulate r0)
    as [[table table_str]|e] eqn:Hx; simpl.
  - split; [discriminate|].
    intros str ->.
    destruct results as [results|e]; simpl in Hx; [|discriminate].
    apply tabulate_results_shape in Hx
      as [[_ Hn] | (r & rs & s' & -> & _)]; [discriminate | eauto].
  - split; [discriminate | eauto].
Qed.

(** X7. A stream read to its end in which every line is passed over
    (it has no payload, or a payload [json.loads] rejects with
    [JSONDecodeError], or a document without a delta) gives the fallback
    response: the placeholder text, the sentinel statement, no results,
    no table, no citations; and nothing is executed. *)
Theorem frameless_stream_gives_fallback (query : string) (w : world)
  (resp : sse_body) :
  agent_endpoint (uuid4 (drawn w)) (the_payload query) = Ok resp ->
  read_fault resp = None ->
  Forall (passed_over json_loads) (aiter_lines resp) ->
  call query w =
  (Ok (mk_response_object "No text response generated." "NO_SQL_GENERATED"
         None None []),
   once_asked query w).
Proof.
  intros Ha Hfault Hover.
  assert (Hfold : forall st,
            for_each (fold_line json_loads) (aiter_lines resp) st = Ok st).
  { induction Hover as [|l ls Hl _ IH]; intros st; simpl; [reflexivity|].
    rewrite (fold_line_passed_over _ _ _ Hl); simpl; apply IH. }
  assert (Hp : process_sse_response json_loads resp = Ok ("", "", [])).
  { unfold process_sse_response; rewrite Hfold, Hfault; reflexivity. }
  rewrite (run_after_stream _ _ _ _ _ _ _ _ _ _ _ _ _ _ Ha Hp).
  now rewrite assemble_nothing.
Qed.

(** X8. Of the exceptions that derive from [Exception], the ones
    [except Exception] catches and [exn] holds, [run_cortex_agents]
    raises one exactly when the agent request raises it or the decoding
    of the stream raises it; it has then posted the agent request and
    nothing else. No such exception raised by the execute endpoint, by
    the reading of its answer or by [tabulate] leaves the call. What does
    not derive from [Exception], a cancellation for one, is outside this
    statement. *)
Theorem call_raises_iff (query : string) (w : world) (e : exn) :
  (fst (call query w) = Raise e <->
   agent_endpoint (uuid4 (drawn w)) (the_payload query) = Raise e
   \/ exists resp,
        agent_endpoint (uuid4 (drawn w)) (the_payload query) = Ok resp
        /\ process_sse_response json_loads resp = Raise e)
  /\ (fst (call query w) = Raise e ->
      snd (call query w) = once_asked query w).
Proof.
  destruct (call_cases query w)
    as [(e' & Ha & ->) | [(resp & e' & Ha & Hp & ->)
                         | (resp & t & s & c & Ha & Hp & ->)]]; simpl.
  - split; [|reflexivity].
    split; [intros H; injection H as <-; now left|].
    intros [H | (resp & H & _)]; congruence.
  - split; [|reflexivity].
    split; [intros H; injection H as <-; right; eauto|].
    intros [H | (resp' & H & H')]; congruence.
  - split; [|discriminate].
    split; [discriminate|].
    intros [H | (resp' & H & H')]; congruence.
Qed.

(** X9. The execution stage cannot alter the answer: with another execute
    endpoint, another [tabulate] and another rendering of exceptions, the
    call raises in the same cases, and when it returns, the [text], the
    [sql] and the [citations] of the response are the same. *)
Theorem execution_cannot_alter_answer
  (statements_endpoint' : string -> value -> result http_response)
  (tabulate' : list row -> result string) (str_exn' : exn -> string)
  (query : string) (w : world) :
  let other :=
    run_cortex_agents json_loads uuid4 SEMANTIC_MODEL_FILE
      CORTEX_SEARCH_SERVICE statements_endpoint' agent_endpoint tabulate'
      str_exn' in
  outcome (fst (call query w)) = outcome (fst (other query w))
  /\ forall r r',
       fst (call query w) = Ok r -> fst (other query w) = Ok r' ->
       out_text r = out_text r' /\ out_sql r = out_sql r'
       /\ out_citations r = out_citations r'.
Proof.
  intros other; unfold other.
  destruct (call_cases query w)
    as [(e' & Ha & ->) | [(resp & e' & Ha & Hp & ->)
                         | (resp & t & s & c & Ha & Hp & ->)]]; simpl.
  - unfold run_cortex_agents, fresh_uuid, post; simpl; rewrite Ha; simpl.
    split; [reflexivity | discriminate].
  - unfold run_cortex_agents, fresh_uuid, post; simpl; rewrite Ha, Hp; simpl.
    split; [reflexivity | discriminate].
  - rewrite (run_after_stream _ _ _ _ statements_endpoint' _ tabulate' str_exn'
               _ _ _ _ _ _ Ha Hp); simpl.
    split; [reflexivity|].
    intros r r' H H'; injection H as <-; injection H' as <-.
    now rewrite !assemble_text, !assemble_sql, !assemble_citations.
Qed.

(** X10. Every response [run_cortex_agents] returns has a [text] and
    a [sql] that are not empty; when it has no [results] it has no
    [results_table] and its [sql] is the sentinel; when it has a
    [results_table] its [results] is a list with at least one row. *)
Theorem response_invariants (query : string) (w : world) (r : response_object) :
  fst (call query w) = Ok r ->
  out_text r <> "" /\ out_sql r <> ""
  /\ (out_results r = None ->
      out_results_table r = None /\ out_sql r = "NO_SQL_GENERATED")
  /\ (forall table_str, out_results_table r = Some table_str ->
      exists row rows, out_results r = Some (row :: rows)).
Proof.
  destruct (call_cases query w)
    as [(e' & Ha & ->) | [(resp & e' & Ha & Hp & ->)
                         | (resp & t & s & c & Ha & Hp & ->)]]; simpl;
    try discriminate.
  intros H; injection H as <-.
  rewrite assemble_text, assemble_sql.
  split; [|split].
  - destruct (String.eqb t "") eqn:E; [discriminate|].
    now apply String.eqb_neq in E.
  - destruct (String.eqb s "") eqn:E; [discriminate|].
    now apply String.eqb_neq in E.
  - rewrite <- (assemble_sql uuid4 statements_endpoint tabulate str_exn t s c
                  (once_asked query w)).
    apply assemble_results.
Qed.

(** X11. When the statement is not empty and the execute endpoint
    answers 200 with an object whose [data] is a list of rows, each a
    list, and whose [resultSetMetaData.rowType] is a list of descriptors,
    each an object with a string [name], whatever else the object, the
    metadata and the descriptors hold, the [results] of the response are
    the row objects of the rows under those names, in order; with no row
    the [results_table] is null and [tabulate] is not consulted,
    otherwise it is what [tabulate] makes of the row objects. *)
Theorem successful_execution_returns_rows (query : string) (w : world)
  (resp : sse_body) (t s : string) (c : list citation)
  (body_text : string) (results meta : dict) (cols : list value)
  (names : list string) (rows : list (list value)) (table_str : string) :
  agent_endpoint (uuid4 (drawn w)) (the_payload query) = Ok resp ->
  process_sse_response json_loads resp = Ok (t, s, c) ->
  s <> "" ->
  statements_endpoint (uuid4 (S (drawn w))) (statement_payload s)
    = Ok (mk_response 200 body_text (Ok (VDict results))) ->
  dict_get "data" results = Some (VList (map VList rows)) ->
  dict_get "resultSetMetaData" results = Some (VDict meta) ->
  dict_get "rowType" meta = Some (VList cols) ->
  Forall2 names_column cols names ->
  (rows = [] \/ tabulate (map (row_object names) rows) = Ok table_str) ->
  exists r w',
    call query w = (Ok r, w')
    /\ out_results r = Some (map (row_object names) rows)
    /\ out_results_table r =
       match rows with
       | [] => None
       | _ => Some table_str
       end.
Proof.
  intros Ha Hp Hs He Hdata Hmeta Htype Hcols Htab.
  rewrite (run_after_stream _ _ _ _ _ _ _ _ _ _ _ _ _ _ Ha Hp).
  eexists; eexists; split; [reflexivity|].
  apply String.eqb_neq in Hs.
  unfold assemble, try_execute, execute_sql, statement_payload in *; rewrite Hs.
  simpl; rewrite replace_semicolons, He; simpl.
  rewrite (tabulate_envelope _ _ _ _ _ _ Hdata Hmeta Htype Hcols).
  destruct Htab as [-> | Htab]; [simpl; now split|].
  destruct rows as [|vs rows]; [simpl; now split|].
  cbn [map] in *; rewrite Htab; simpl; now split.
Qed.

(** X12. Every request of a call carries an identifier drawn for it: the
    call posts one or two requests after those already posted, draws as
    many identifiers, and the requests carry them in the order drawn. *)
Theorem requests_carry_fresh_ids (query : string) (w : world) :
  exists posted,
    sent (snd (call query w)) = sent w ++ posted
    /\ drawn (snd (call query w)) = drawn w + length posted
    /\ map request_id_of posted = map uuid4 (seq (drawn w) (length posted))
    /\ (length posted = 1 \/ length posted = 2).
Proof.
  destruct (call_cases query w)
    as [(e' & Ha & ->) | [(resp & e' & Ha & Hp & ->)
                         | (resp & t & s & c & Ha & Hp & ->)]]; simpl.
  - eexists; split; [reflexivity|]; simpl.
    repeat split; [lia | now left].
  - eexists; split; [reflexivity|]; simpl.
    repeat split; [lia | now left].
  - destruct (String.eqb s "") eqn:Es.
    + apply String.eqb_eq in Es; subst s; rewrite assemble_nothing; simpl.
      eexists; split; [reflexivity|]; simpl.
      repeat split; [lia | now left].
    + apply String.eqb_neq in Es.
      rewrite (assemble_world _ _ _ _ _ _ _ _ Es); simpl.
      rewrite <- app_assoc; eexists; split; [reflexivity|]; simpl.
      repeat split; [lia | now right].
Qed.

(** X18. Whether a statement is executed is decided before its
    semicolons are removed: a statement that is not empty and holds
    semicolons only is executed, and what is posted is the empty
    statement. *)
Theorem semicolons_only_statement_is_posted_empty (query : string) (w : world)
  (resp : sse_body) (t s : string) (c : list citation) :
  agent_endpoint (uuid4 (drawn w)) (the_payload query) = Ok resp ->
  process_sse_response json_loads resp = Ok (t, s, c) ->
  s <> "" ->
  (forall x, occurs x s -> x = ";"%char) ->
  sent (snd (call query w)) =
  sent w ++
  [AgentRun (uuid4 (drawn w)) (the_payload query);
   Statements (uuid4 (S (drawn w)))
     (VDict [("statement", VStr ""); ("timeout", VInt 60)])].
Proof.
  intros Ha Hp Hs Honly.
  rewrite (run_after_stream _ _ _ _ _ _ _ _ _ _ _ _ _ _ Ha Hp); simpl.
  rewrite (assemble_world _ _ _ _ _ _ _ _ Hs); simpl.
  unfold statement_payload; rewrite (delete_all_only _ _ Honly).
  now rewrite <- app_assoc.
Qed.

End Calls.

(** ** The rows of an execution *)

Lemma rows_without_columns (rows : list (list value)) :
  map_m (make_row []) (map VList rows) = Ok (map (fun _ => []) rows).
Proof.
  induction rows as [|vs rows IH]; [reflexivity|].
  cbn [map map_m]; rewrite IH; reflexivity.
Qed.

(** X13. When what the execution returned has no [resultSetMetaData],
    no column is known: without [data] the results are the empty list, and
    with rows in [data] every row becomes an empty row object, its values
    dropped, and the table is what [tabulate] makes of those. *)
Theorem rows_without_metadata_are_empty (tabulate : list row -> result string)
  (results : dict) :
  dict_get "resultSetMetaData" results = None ->
  (dict_get "data" results = None ->
   tabulate_results tabulate (VDict results) = Ok ([], None))
  /\ (forall rows,
        dict_get "data" results = Some (VList (map VList rows)) ->
        tabulate_results tabulate (VDict results) =
        match rows with
        | [] => Ok ([], None)
        | _ =>
            s <- tabulate (map (fun _ => []) rows) ;;
            Ok (map (fun _ => []) rows, Some s)
        end).
Proof.
  intros Hmeta; split.
  - intros Hdata; unfold tabulate_results, attr_get, get_default.
    rewrite Hmeta, Hdata; reflexivity.
  - intros rows Hdata; unfold tabulate_results, attr_get, get_default.
    rewrite Hmeta, Hdata; simpl.
    rewrite rows_without_columns; simpl.
    destruct rows; reflexivity.
Qed.

Lemma dict_of_returns (pairs : list (value * value)) (d : row) :
  (exists d', dict_of pairs d = Ok d') <->
  forallb hashable (map fst pairs) = true.
Proof.
  revert d; induction pairs as [|[k v] pairs IH]; intros d; simpl.
  - split; eauto.
  - destruct (hashable k); simpl; [apply IH|].
    split; [intros [d' H]; discriminate | discriminate].
Qed.

Lemma dict_of_raises (pairs : list (value * value)) (d : row) (e : exn) :
  dict_of pairs d = Raise e -> e = TypeError.
Proof.
  revert d; induction pairs as [|[k v] pairs IH]; intros d; simpl;
    [discriminate|].
  destruct (hashable k); [apply IH | intros H; now injection H].
Qed.

Lemma zipped_columns (columns vs : list value) :
  map fst (zip columns vs) = firstn (length vs) columns.
Proof.
  unfold zip; revert vs; induction columns as [|k columns IH]; intros [|v vs];
    simpl; try reflexivity.
  now rewrite IH.
Qed.

(** X14. A row object is built from a list of values exactly when the
    column names that meet a value are hashable, that is, none of them is
    a list or a dict; names beyond the values do not matter. A row that is
    [null], a number or a boolean cannot be zipped, whatever the columns.
    The only exception the building raises is [TypeError]. *)
Theorem make_row_returns_iff (columns : list value) :
  (forall vs,
     (exists d, make_row columns (VList vs) = Ok d) <->
     forallb hashable (firstn (length vs) columns) = true)
  /\ (forall r,
        (r = VNone \/ (exists b, r = VBool b) \/ (exists z, r = VInt z)
         \/ exists f, r = VFloat f) ->
        make_row columns r = Raise TypeError)
  /\ (forall r e, make_row columns r = Raise e -> e = TypeError).
Proof.
  split; [|split].
  - intros vs; unfold make_row; simpl.
    now rewrite dict_of_returns, zipped_columns.
  - intros r [-> | [[b ->] | [[z ->] | [f ->]]]]; reflexivity.
  - intros r e; unfold make_row.
    destruct (iter r) as [vs|e'] eqn:Hi; simpl.
    + apply dict_of_raises.
    + intros H; injection H as <-; exact (iter_raises _ _ Hi).
Qed.

(** X15. The column names are read off the descriptors in order: the
    reading returns exactly when every descriptor is an object with a
    [name], and the names are then those values. After descriptors that
    have one, the first descriptor that is an object without a [name]
    raises [KeyError], and the first that is not an object raises
    [TypeError], whatever follows. *)
Theorem column_names_are_read_in_order (cols : list value) :
  (forall names,
     map_m subscript_name cols = Ok names <->
     Forall2 (fun col name =>
                exists d, col = VDict d /\ dict_get "name" d = Some name)
       cols names)
  /\ (forall named names bad rest,
        cols = named ++ bad :: rest ->
        map_m subscript_name named = Ok names ->
        (forall d, bad = VDict d -> dict_get "name" d = None ->
           map_m subscript_name cols = Raise KeyError)
        /\ (is_object bad = false ->
            map_m subscript_name cols = Raise TypeError)).
Proof.
  split.
  - induction cols as [|col cols IH]; intros names; simpl.
    + split; [intros H; injection H as <-; constructor|].
      intros H; inversion H; reflexivity.
    + split.
      * destruct (subscript_name col) as [n|e] eqn:Hn; simpl; [|discriminate].
        destruct (map_m subscript_name cols) as [ns|e] eqn:Hns; simpl;
          [|discriminate].
        intros H; injection H as <-; constructor; [|now apply IH].
        unfold subscript_name in Hn.
        destruct col as [| | | | | |d]; try discriminate.
        destruct (dict_get "name" d) eqn:Hd; [|discriminate].
        injection Hn as <-; eauto.
      * intros H; inversion H as [|? n ? ns (d & -> & Hd) Hrest]; subst.
        apply IH in Hrest; simpl; rewrite Hd, Hrest; reflexivity.
  - intros named names bad rest -> Hnamed.
    assert (Hstep : forall e, subscript_name bad = Raise e ->
                      map_m subscript_name (named ++ bad :: rest) = Raise e).
    { intros e Hbad; clear - Hnamed Hbad.
      revert names Hnamed; induction named as [|col named IH];
        intros names Hnamed; simpl in *.
      - now rewrite Hbad.
      - destruct (subscript_name col) as [n|e']; simpl in *; [|discriminate].
        destruct (map_m subscript_name named) as [ns|e'] eqn:Hns; simpl in *;
          [|discriminate].
        now rewrite (IH ns eq_refl). }
    split.
    + intros d -> Hd; apply Hstep; simpl; now rewrite Hd.
    + intros Hobj; apply Hstep; destruct bad; try reflexivity; discriminate.
Qed.

(** ** The statement that is posted *)

(** X16. The statement [execute_sql] posts holds no semicolon, holds
    every other character of the statement it was given, is not longer,
    and is the statement itself when that has no semicolon. *)
Theorem posted_statement_has_no_semicolon (uuid4 : nat -> string)
  (statements_endpoint : string -> value -> result http_response)
  (sql : string) (w : world) :
  exists statement,
    sent (snd (execute_sql uuid4 statements_endpoint sql w)) =
    sent w ++
    [Statements (uuid4 (drawn w))
       (VDict [("statement", VStr statement); ("timeout", VInt 60)])]
    /\ ~ occurs ";" statement
    /\ (forall c, c <> ";"%char -> (occurs c statement <-> occurs c sql))
    /\ String.length statement <= String.length sql
    /\ (~ occurs ";" sql -> statement = sql).
Proof.
  exists (delete_all ";" sql); rewrite execute_sql_posts.
  split; [reflexivity|].
  split; [rewrite delete_all_occurs; tauto|].
  split; [intros c Hc; rewrite delete_all_occurs; tauto|].
  split; [apply delete_all_length | apply delete_all_absent].
Qed.

(** ** Importing the module *)

(** X17. The module is imported, with the token behind [Bearer ] in the
    [Authorization] header, exactly when [SNOWFLAKE_PAT] and
    [SNOWFLAKE_ACCOUNT_URL] are both set and not empty; an empty setting
    is refused like a missing one, and a refused token is reported
    whatever the URL. *)
Theorem import_needs_both_settings (url pat : option string) :
  (forall headers,
     import_module url pat = Imported headers <->
     exists token account,
       pat = Some token /\ token <> "" /\ url = Some account /\ account <> ""
       /\ headers =
          [("Authorization", ("Bearer " ++ token)%string);
           ("X-Snowflake-Authorization-Token-Type", "PROGRAMMATIC_ACCESS_TOKEN");
           ("Content-Type", "application/json")])
  /\ (unset pat = true ->
      import_module url pat =
      RuntimeError "Set SNOWFLAKE_PAT environment variable").
Proof.
  split.
  - intros headers; unfold import_module, unset.
    destruct pat as [token|]; [|split; [discriminate|]; intros (? & ? & ? & _);
                                 discriminate].
    destruct (String.eqb token "") eqn:Et.
    + apply String.eqb_eq in Et; split; [discriminate|].
      intros (t' & a & H & Hne & _); injection H as <-; contradiction.
    + apply String.eqb_neq in Et.
      destruct url as [account|];
        [|split; [discriminate|]; intros (? & ? & _ & _ & ? & _); discriminate].
      destruct (String.eqb account "") eqn:Ea.
      * apply String.eqb_eq in Ea; split; [discriminate|].
        intros (t' & a & _ & _ & H & Hne & _); injection H as <-; contradiction.
      * apply String.eqb_neq in Ea; split.
        -- intros H; injection H as <-; exists token, account; auto.
        -- intros (t' & a & H & _ & _ & _ & ->); injection H as <-; reflexivity.
  - unfold import_module, unset; destruct pat as [token|]; [|reflexivity].
    now intros ->.
Qed.

(** ** The nested content of a tool-results item *)

Lemma fold_results_chars (s : string) (st : aggregate) :
  for_each fold_result (chars s) st = Ok st.
Proof. induction s; simpl; auto. Qed.

Lemma fold_results_keys {A : Type} (f : A -> string) (l : list A)
  (st : aggregate) :
  for_each fold_result (map (fun x => VStr (f x)) l) st = Ok st.
Proof. induction l; simpl; auto. Qed.

(** X19. What a tool-results item contributes is decided by its nested
    [content]: a list is folded member by member; [true] and a number
    other than zero raise [TypeError]; anything else (an absent content,
    [null], [false], zero, a string, a dict) leaves the state as it
    was. *)
Theorem tool_results_content_shapes (st : aggregate) (it tool_results : dict) :
  get "type" it = VStr "tool_results" ->
  dict_get "tool_results" it = Some (VDict tool_results) ->
  fold_item st (VDict it) =
  match dict_get "content" tool_results with
  | Some (VList results) => for_each fold_result results st
  | Some (VBool true) => Raise TypeError
  | Some (VInt z) => if Z.eqb z 0 then Ok st else Raise TypeError
  | Some (VFloat f) => if float_is_zero f then Ok st else Raise TypeError
  | _ => Ok st
  end.
Proof.
  intros Htype Htr; unfold fold_item, get_default, py_or.
  rewrite Htype, Htr; simpl.
  destruct (dict_get "content" tool_results) as [[|b|z|f|s|l|d]|]; simpl;
    try reflexivity.
  - destruct b; reflexivity.
  - destruct (Z.eqb z 0); reflexivity.
  - destruct (float_is_zero f); reflexivity.
  - destruct (String.eqb s ""); simpl;
      [reflexivity | apply fold_results_chars].
  - destruct l; reflexivity.
  - destruct d as [|kv d]; simpl; [reflexivity|].
    apply (fold_results_keys fst d).
Qed.

(** ** A payload too deep for the decoder *)

Lemma rstrip_fixed (s : string) :
  (forall x, occurs x s -> is_space x = false) -> rstrip s = s.
Proof.
  unfold occurs; induction s as [|c s IH]; intros H; [reflexivity|].
  cbn [rstrip]; rewrite IH by (intros x Hx; apply H; now right).
  destruct s; [|reflexivity].
  now rewrite (H c) by now left.
Qed.

Lemma rstrip_append (a q : string) :
  rstrip q = q -> q <> "" -> rstrip (a ++ q) = (a ++ q)%string.
Proof.
  intros Hq Hne; induction a as [|c a IH]; [exact Hq|].
  cbn [append rstrip]; rewrite IH.
  destruct (a ++ q)%string eqn:E; [|reflexivity].
  destruct a; simpl in E; [contradiction | discriminate].
Qed.

(** The payload of [data: ] followed by a text that begins and ends with
    characters that are not white space. *)
Lemma payload_of_data (p : string) (c : ascii) (tail : string) :
  p = String c tail -> is_space c = false -> rstrip p = p ->
  String.eqb p "[DONE]" = false ->
  payload_of ("data: " ++ p) = Some p.
Proof.
  intros Hp Hc Hr Hdone.
  assert (Hne : p <> "") by (rewrite Hp; discriminate).
  assert (Hstrip : strip p = p)
    by (unfold strip; rewrite Hp; cbn [lstrip]; rewrite Hc, <- Hp; exact Hr).
  unfold payload_of.
  replace (strip ("data: " ++ p)) with ("data: " ++ p)%string
    by (unfold strip; symmetry; exact (rstrip_append "data: " p Hr Hne)).
  change (drop (String.length "data:") ("data: " ++ p))
    with (String " "%char p).
  replace (strip (String " "%char p)) with p by (symmetry; exact Hstrip).
  rewrite Hdone.
  replace (String.eqb p "") with false
    by (symmetry; apply String.eqb_neq; exact Hne).
  reflexivity.
Qed.

Lemma deep_payload_shape :
  exists tail,
    deep_payload = String "["%char (String "["%char tail)
    /\ forall x, occurs x tail -> x = "["%char.
Proof.
  unfold deep_payload.
  change 100000%N with (N.succ (N.succ 99998)).
  rewrite !N.iter_succ.
  eexists; split; [reflexivity|].
  apply N.iter_invariant; [|intros x []].
  intros s Hs x [<- | Hx]; auto.
Qed.

Lemma deep_line_payload : payload_of deep_line = Some deep_payload.
Proof.
  destruct deep_payload_shape as (tail & Hshape & Hall).
  unfold deep_line.
  apply (payload_of_data _ "["%char (String "["%char tail));
    [exact Hshape | reflexivity | | rewrite Hshape; reflexivity].
  rewrite Hshape; apply rstrip_fixed.
  intros x [<- | [<- | Hx]]; [reflexivity | reflexivity|].
  now rewrite (Hall x Hx).
Qed.

Lemma deep_payload_refused :
  deep_loads deep_payload = Raise (LibraryError "RecursionError").
Proof. unfold deep_loads; now rewrite String.eqb_refl. Qed.

(** ** Worked instances of the further properties *)

Lemma citations_skip_non_objects_witness :
  [mk_citation (VStr "a") VNone; mk_citation (VStr "a") (VStr "d1");
   mk_citation (VStr "b") VNone]
  = map citation_record
      (filter is_object (search_results loose_loads (aiter_lines loose_stream)))
  /\ 3 <= length (search_results loose_loads (aiter_lines loose_stream)).
Proof.
  apply (citations_skip_non_objects loose_loads loose_stream
           "Hellosee " "SELECT 1").
  vm_compute; reflexivity.
Defined.

Lemma streams_compose_witness :
  process_sse_response sample_loads
    (mk_body ([data_line 0; data_line 3] ++ [data_line 1; data_line 4]) None)
  = Ok ("Hello ",
        last (sql_writes sample_loads [data_line 1; data_line 4]) "SELECT 1",
        [mk_citation (VStr "a") (VStr "d1"); mk_citation (VStr "b") VNone;
         mk_citation (VStr "a") (VStr "d1")]).
Proof.
  apply (proj1 (streams_compose sample_loads [data_line 0; data_line 3]
                  [data_line 1; data_line 4] "Hello" "SELECT 1"
                  [mk_citation (VStr "a") (VStr "d1");
                   mk_citation (VStr "b") VNone]
                  ltac:(vm_compute; reflexivity))
           " " "SELECT 'a;b';" [mk_citation (VStr "a") (VStr "d1")]).
  vm_compute; reflexivity.
Defined.

Lemma process_raises_only_witness :
  (TypeError = TypeError
   /\ exists raw_line payload evt delta st,
        In raw_line (aiter_lines (mk_body [data_line 0; data_line 5] None))
        /\ payload_of raw_line = Some payload
        /\ sample_loads payload = Ok evt
        /\ extract_delta evt = Some delta
        /\ fold_delta st delta = Raise TypeError)
  \/ read_fault (mk_body [data_line 0; data_line 5] None) = Some TypeError
  \/ (TypeError <> JSONDecodeError
      /\ exists raw_line payload,
           In raw_line (aiter_lines (mk_body [data_line 0; data_line 5] None))
           /\ payload_of raw_line = Some payload
           /\ sample_loads payload = Raise TypeError).
Proof.
  apply (process_raises_only sample_loads
           (mk_body [data_line 0; data_line 5] None) TypeError).
  vm_compute; reflexivity.
Defined.

Lemma frameless_stream_gives_fallback_witness :
  run_cortex_agents sample_loads sample_uuid4 None None
    failing_endpoint
    (fun _ _ => Ok (mk_body [""; ": keep-alive"; "data: not json";
                             data_line 6; "data: [DONE]"] None))
    sample_tabulate sample_str "how many?" new_world =
  (Ok (mk_response_object "No text response generated." "NO_SQL_GENERATED"
         None None []),
   asked sample_uuid4 None None "how many?" new_world).
Proof.
  apply (frameless_stream_gives_fallback sample_loads sample_uuid4 None None
           failing_endpoint
           (fun _ _ => Ok (mk_body [""; ": keep-alive"; "data: not json";
                                    data_line 6; "data: [DONE]"] None))
           sample_tabulate sample_str
           "how many?" new_world
           (mk_body [""; ": keep-alive"; "data: not json";
                     data_line 6; "data: [DONE]"] None));
    [reflexivity | reflexivity |].
  constructor; [vm_compute; exact I|].
  constructor; [vm_compute; exact I|].
  constructor; [vm_compute; left; reflexivity|].
  constructor; [vm_compute; right; eexists; split; reflexivity|].
  constructor; [vm_compute; exact I | constructor].
Defined.

Lemma response_invariants_witness :
  out_text sample_response <> "" /\ out_sql sample_response <> ""
  /\ (out_results sample_response = None ->
      out_results_table sample_response = None
      /\ out_sql sample_response = "NO_SQL_GENERATED")
  /\ (forall table_str, out_results_table sample_response = Some table_str ->
      exists row rows, out_results sample_response = Some (row :: rows)).
Proof.
  apply (response_invariants sample_loads sample_uuid4 None None
           answering_endpoint sample_agent sample_tabulate sample_str
           "how many?" new_world sample_response).
  vm_compute; reflexivity.
Defined.

Lemma successful_execution_returns_rows_witness :
  exists r w',
    run_cortex_agents sample_loads sample_uuid4 None None
      service_endpoint sample_agent sample_tabulate sample_str
      "how many?" new_world = (Ok r, w')
    /\ out_results r =
       Some (map (row_object ["REGION"; "TOTAL"])
               [[VStr "EMEA"; VStr "12"]; [VStr "APAC"; VNone]])
    /\ out_results_table r = Some "+---+".
Proof.
  apply (successful_execution_returns_rows sample_loads sample_uuid4 None None
           service_endpoint sample_agent sample_tabulate sample_str
           "how many?" new_world sample_stream "Hello world" "SELECT 'a;b';"
           sample_citations "..." service_answer
           [("numRows", VInt 2); ("format", VStr "jsonv2");
            ("rowType",
             VList [VDict [("name", VStr "REGION"); ("type", VStr "text");
                           ("nullable", VBool true)];
                    VDict [("name", VStr "TOTAL"); ("type", VStr "fixed");
                           ("nullable", VBool false)]])]
           [VDict [("name", VStr "REGION"); ("type", VStr "text");
                   ("nullable", VBool true)];
            VDict [("name", VStr "TOTAL"); ("type", VStr "fixed");
                   ("nullable", VBool false)]]
           ["REGION"; "TOTAL"]
           [[VStr "EMEA"; VStr "12"]; [VStr "APAC"; VNone]] "+---+");
    [reflexivity | vm_compute; reflexivity | discriminate | reflexivity
    | reflexivity | reflexivity | reflexivity | | right; reflexivity].
  repeat constructor; eexists; split; reflexivity.
Defined.

Lemma rows_without_metadata_are_empty_witness :
  tabulate_results sample_tabulate
    (VDict [("data", VList [VList [VInt 1; VInt 2]])])
  = Ok ([[]], Some "+---+").
Proof.
  apply (proj2 (rows_without_metadata_are_empty sample_tabulate
                  [("data", VList [VList [VInt 1; VInt 2]])] eq_refl)
           [[VInt 1; VInt 2]]).
  reflexivity.
Defined.

Lemma semicolons_only_statement_is_posted_empty_witness :
  sent (snd (run_cortex_agents semicolons_loads sample_uuid4 None None
               refusing_endpoint semicolons_agent sample_tabulate sample_str
               "how many?" new_world)) =
  sent new_world ++
  [AgentRun (sample_uuid4 0) (agent_payload None None "how many?");
   Statements (sample_uuid4 1)
     (VDict [("statement", VStr ""); ("timeout", VInt 60)])].
Proof.
  apply (semicolons_only_statement_is_posted_empty semicolons_loads
           sample_uuid4 None None refusing_endpoint semicolons_agent
           sample_tabulate sample_str "how many?" new_world
           (mk_body [("data: " ++ semicolons_document)%string] None)
           "" ";;" []);
    [reflexivity | vm_compute; reflexivity | discriminate |].
  intros x [<- | [<- | []]]; reflexivity.
Defined.

Lemma tool_results_content_shapes_witness :
  fold_item initial
    (VDict [("type", VStr "tool_results");
            ("tool_results", VDict [("content", VStr "SELECT 1")])])
  = Ok initial.
Proof.
  apply (tool_results_content_shapes initial
           [("type", VStr "tool_results");
            ("tool_results", VDict [("content", VStr "SELECT 1")])]
           [("content", VStr "SELECT 1")]); reflexivity.
Defined.

Lemma undecodable_payload_aborts_stream_witness :
  process_sse_response deep_loads deep_stream =
  Raise (LibraryError "RecursionError").
Proof.
  apply (proj2 (proj2 (undecodable_payload_aborts_stream deep_loads deep_line
                         deep_payload (LibraryError "RecursionError")
                         deep_line_payload deep_payload_refused
                         ltac:(discriminate)))
           [data_line 0] [data_line 3] None).
  eexists; vm_compute; reflexivity.
Defined.
